(** * our-connection-journal: the answer-submission transaction and its readers

    A shallow embedding of [src/app.py] (a Flask application over SQLite and
    a folder of audio blobs) and the properties of its request handlers.

    Conventions of the embedding:
    - Python [str] is [string]; Python [int] and SQLite [INTEGER] are [Z];
      SQL [NULL] and Python [None] are [None] of an [option].
    - The SQLite file is a record of three tables; a connection sees a
      working copy which [commit] publishes and [rollback] discards.
    - The upload folder is the finite set of paths that exist in it.
    - Wall-clock reads, the generated uuid and failures of the storage
      layer are supplied by an environment record, one per request.
    - The read-only handlers are modelled on a store that answers their
      SELECT statements; their [except] branches, which turn a failing
      store into a 500 reply, are left out. *)

From stdpp Require Import base decidable option list strings gmap sorting.
From Stdlib Require Import ZArith Ascii String Lia.

Local Open Scope string_scope.
Local Open Scope list_scope.
Local Open Scope Z_scope.

(** ** Python string primitives used by the handlers *)

Module PyStr.

(** [str.isspace] on one character, for the ASCII range: tab, line feed,
    vertical tab, form feed, carriage return, the four separators
    0x1c-0x1f and space. *)
Definition is_space (c : ascii) : bool :=
  let n := nat_of_ascii c in
  ((9 <=? n)%nat && (n <=? 13)%nat) || ((28 <=? n)%nat && (n <=? 32)%nat).

(** [s.lstrip()] *)
Fixpoint lstrip (s : string) : string :=
  match s with
  | String c s' => if is_space c then lstrip s' else s
  | EmptyString => EmptyString
  end.

(** [s.rstrip()] *)
Fixpoint rstrip (s : string) : string :=
  match s with
  | String c s' =>
      match rstrip s' with
      | EmptyString => if is_space c then EmptyString else String c EmptyString
      | r => String c r
      end
  | EmptyString => EmptyString
  end.

(** [s.strip()] *)
Definition strip (s : string) : string := rstrip (lstrip s).

(** [s.startswith(p)] *)
Fixpoint startswith (s p : string) : bool :=
  match p, s with
  | EmptyString, _ => true
  | String a p', String b s' => if decide (a = b) then startswith s' p' else false
  | String _ _, EmptyString => false
  end.

(** [sub in s] *)
Fixpoint contains (sub s : string) : bool :=
  startswith s sub ||
  match s with
  | String _ s' => contains sub s'
  | EmptyString => false
  end.

(** One character of [s.lower()], for the ASCII range. *)
Definition lower_ascii (c : ascii) : ascii :=
  let n := nat_of_ascii c in
  if ((65 <=? n)%nat && (n <=? 90)%nat) then ascii_of_nat (n + 32) else c.

(** [s.lower()] *)
Fixpoint lower (s : string) : string :=
  match s with
  | String c s' => String (lower_ascii c) (lower s')
  | EmptyString => EmptyString
  end.

(** [s.rsplit(sep, 1)[1]] for a one-character [sep] that occurs in [s]:
    the text after the last occurrence; [None] when [sep] does not occur
    (Python then raises IndexError). *)
Fixpoint rsplit1_tail (sep : ascii) (s : string) : option string :=
  match s with
  | EmptyString => None
  | String c s' =>
      match rsplit1_tail sep s' with
      | Some t => Some t
      | None => if decide (c = sep) then Some s' else None
      end
  end.

(** Truthiness of a string: [bool(s)]. *)
Definition truthy (s : string) : bool :=
  match s with EmptyString => false | _ => true end.

End PyStr.

(** Truthiness of an integer: [bool(n)]. *)
Definition truthyZ (n : Z) : bool := negb (n =? 0).

(** ** Configuration (module-level constants of app.py) *)

Definition UPLOAD_FOLDER : string := "audio_uploads".
Definition ALLOWED_EXTENSIONS : list string := ["webm"; "mp3"; "ogg"; "wav"; "m4a"].
Definition USERS : list string := ["nidhi"; "arpan"].

(** [os.path.join(UPLOAD_FOLDER, name)] *)
Definition upload_path (name : string) : string := UPLOAD_FOLDER +:+ "/" +:+ name.

(** [allowed_file] *)
Definition allowed_file (filename : string) : bool :=
  PyStr.contains "." filename &&
  match PyStr.rsplit1_tail "." filename with
  | Some ext => bool_decide (PyStr.lower ext ∈ ALLOWED_EXTENSIONS)
  | None => false
  end.

(** ** The persistent store *)

Record question_row := mkQuestion { q_id : Z; q_text : string }.

Record answer_row := mkAnswer {
  a_question_id : Z;
  a_user_id : string;
  a_audio_filename : string;
  a_timestamp : Z
}.

(** The single row [id = 1] of table CoupleState. *)
Record couple_state := mkState {
  love_points : Z;
  streak_count : Z;
  last_streak_update_date : option string;
  daily_progress_date : option string;
  daily_random_answered : Z;
  daily_manual_answered : Z
}.

Record database := mkDb {
  Questions : list question_row;
  Answers : list answer_row;
  CoupleState : option couple_state
}.

#[global] Instance question_row_eq_dec : EqDecision question_row.
Proof. solve_decision. Defined.
#[global] Instance answer_row_eq_dec : EqDecision answer_row.
Proof. solve_decision. Defined.
#[global] Instance couple_state_eq_dec : EqDecision couple_state.
Proof. solve_decision. Defined.
#[global] Instance database_eq_dec : EqDecision database.
Proof. solve_decision. Defined.

(** ** Replies of the JSON API *)

(** The aggregate snapshot returned by /api/state and /api/answer. *)
Record snapshot := mkSnapshot {
  lovePoints : Z;
  streak : Z;
  lastStreakUpdateDate : option string;
  dailyRandomAnswered : Z;
  dailyManualAnswered : Z
}.

Record answer_reply := mkAnswerReply {
  message : string;
  pointAwarded : Z;
  refreshed : snapshot
}.

(** One value of the [answers] dict of a history entry. *)
Record answer_view := mkView { audioUrl : string; timestamp : Z }.

Record history_entry := mkHistory {
  h_id : Z;
  h_text : string;
  h_answers : gmap string answer_view
}.

Record pending_entry := mkPending {
  p_id : Z;
  p_text : string;
  p_asked_by : string;
  p_timestamp : Z
}.

Inductive body :=
| ErrorJson (error : string)
| AnswerJson (reply : answer_reply)
| StateJson (state : snapshot)
| HistoryJson (history_list : list history_entry)
| PendingJson (pending_questions : list pending_entry)
| AudioFile (path : string)
| InternalServerError.  (* Flask's reply to an exception no handler caught *)

Record response := mkResponse { status : Z; payload : body }.

(** ** Requests, environment and system state *)

(** [request.files['audioFile']]: only the client-side file name is read. *)
Record upload := mkUpload { filename : string }.

(** The multipart form of POST /api/answer; [None] is an absent field. *)
Record request := mkRequest {
  form_userId : option string;
  form_questionText : option string;
  form_source : option string;
  files_audioFile : option upload
}.

(** Exceptions the transaction body can see; all derive from [Exception]. *)
Inductive exn :=
| SqliteError (msg : string)        (* sqlite3.Error *)
| OSError (msg : string)            (* OSError other than the next one *)
| FileNotFoundError (msg : string)  (* the OSError subclass *)
| NotFound                          (* werkzeug.exceptions.NotFound *)
| PlainException (msg : string).    (* Exception(...), IndexError, ... *)

(** [str(e)] *)
Definition exn_str (x : exn) : string :=
  match x with
  | SqliteError m | OSError m | FileNotFoundError m | PlainException m => m
  | NotFound => "404 Not Found: The requested URL was not found on the server. If you entered the URL manually please check your spelling and try again."
  end.

(** The calls of [post_answer] that reach the database or the file
    system, in source order: those of the transaction body, and the SELECT
    that reads the aggregate row back after the commit, outside the [try]. *)
Inductive io_point :=
| AtSelectQuestion | AtInsertQuestion | AtSaveAudio | AtInsertAnswer
| AtCountAnswers | AtSelectState | AtUpdateState | AtCommit
| AtReadBack.

(** What one request observes of the outside world. *)
Record env := mkEnv {
  clock_today : string;            (* get_today_str() inside the transaction *)
  clock_yesterday : string;        (* get_yesterday_str() inside the transaction *)
  clock_today_check : string;      (* get_today_str() after the commit *)
  clock_yesterday_reply : string;  (* get_yesterday_str() in the reply *)
  fresh_uuid : string;             (* str(uuid.uuid4()) *)
  now_ms : Z;                      (* int(datetime.now().timestamp() * 1000) *)
  fault : io_point -> option exn;  (* the exception a call raises, if any *)
  save_leaves_file : bool;         (* a failed save left a file behind *)
  remove_fails : option string     (* os.remove raises OSError with this text *)
}.

(** The state between requests: the committed database, the paths present
    in the upload folder, and the lines printed by the exception handler
    of [post_answer] (the other print calls are not recorded). *)
Record system := mkSystem {
  db : database;
  fs : gset string;
  stdout : list string
}.

(** ** The transaction monad

    State of one request while it holds its connection: the committed
    database, the connection's working copy, the upload folder, and
    whether the local variable [filepath] has been assigned. A computation
    either returns a value or raises; the state survives a raise, as the
    exception handler still sees it. *)

Record txn := mkTxn {
  committed : database;
  working : database;
  files : gset string;
  filepath_local : option string
}.

Definition M (A : Type) : Type := txn -> txn * (exn + A).

#[global] Instance M_ret : MRet M := fun A a t => (t, inr a).
#[global] Instance M_bind : MBind M := fun A B k m t =>
  match m t with
  | (t', inr a) => k a t'
  | (t', inl x) => (t', inl x)
  end.

Definition raise {A} (x : exn) : M A := fun t => (t, inl x).
Definition gets {A} (f : txn -> A) : M A := fun t => (t, inr (f t)).
Definition modify (f : txn -> txn) : M unit := fun t => (f t, inr tt).

Definition set_working (d : database) (t : txn) : txn :=
  mkTxn (committed t) d (files t) (filepath_local t).

(** SQLite's rowid for a new row: 1 in an empty table, else the largest
    rowid plus one. *)
Definition next_rowid (ids : list Z) : Z :=
  match ids with
  | [] => 1
  | x :: rest => foldr Z.max x rest + 1
  end.

(** [other_user = 'arpan' if user_id == 'nidhi' else 'nidhi'] *)
Definition other_of (user_id : string) : string :=
  if decide (user_id = "nidhi") then "arpan" else "nidhi".

(** The point award rule of [post_answer]. *)
Definition award (other_answered_count : Z) : Z :=
  if other_answered_count =? 0 then 1 else 5.

(** The count of [SELECT COUNT ... FROM Answers WHERE question_id = ? AND
    user_id = ?] *)
Definition count_rows (d : database) (question_id : Z) (user : string) : Z :=
  Z.of_nat (List.length (filter
    (fun a => a_question_id a = question_id ∧ a_user_id a = user) (Answers d))).

(** The recomputation of the aggregate row in [post_answer]: points,
    streak, then the daily flags. *)
Definition recompute_state (today_str yesterday_str source : string)
    (points_to_add : Z) (state : couple_state) : couple_state :=
  let current_points := love_points state in
  let current_streak := streak_count state in
  let last_update_date_str := last_streak_update_date state in
  let new_points := current_points + points_to_add in
  let '(new_streak, new_last_update_date) :=
    if (0 <? points_to_add) && negb (bool_decide (last_update_date_str = Some today_str))
    then ((if bool_decide (last_update_date_str = Some yesterday_str)
           then current_streak + 1 else 1), Some today_str)
    else (current_streak, last_update_date_str) in
  let '(daily_progress_date, daily_random, daily_manual) :=
    if negb (bool_decide (daily_progress_date state = Some today_str))
    then (Some today_str, 0, 0)
    else (daily_progress_date state, daily_random_answered state,
          daily_manual_answered state) in
  let '(daily_random, daily_manual) :=
    if bool_decide (source = "random") && negb (truthyZ daily_random)
    then (1, daily_manual)
    else if bool_decide (source = "manual") && negb (truthyZ daily_manual)
    then (daily_random, 1)
    else (daily_random, daily_manual) in
  mkState new_points new_streak new_last_update_date
          daily_progress_date daily_random daily_manual.

Section Transaction.

Context (e : env).

(** A call that may raise before it has any effect. *)
Definition at_point (p : io_point) : M unit :=
  match fault e p with
  | Some x => raise x
  | None => mret tt
  end.

(** [SELECT id FROM Questions WHERE text = ?] followed by [fetchone()] *)
Definition select_question (text : string) : M (option question_row) :=
  at_point AtSelectQuestion;;
  gets (fun t => List.find (fun q => bool_decide (q_text q = text))
                           (Questions (working t))).

(** [INSERT INTO Questions (text) VALUES (?)], returning [lastrowid] *)
Definition insert_question (text : string) : M Z :=
  at_point AtInsertQuestion;;
  d ← gets working;
  let id := next_rowid (q_id <$> Questions d) in
  modify (set_working
    (mkDb (Questions d ++ [mkQuestion id text]) (Answers d) (CoupleState d)));;
  mret id.

(** [audio_file.save(filepath)] *)
Definition save (filepath : string) : M unit := fun t =>
  let written :=
    mkTxn (committed t) (working t) ({[filepath]} ∪ files t) (filepath_local t) in
  match fault e AtSaveAudio with
  | Some x => (if save_leaves_file e then written else t, inl x)
  | None => (written, inr tt)
  end.

(** [INSERT INTO Answers (...) VALUES (?, ?, ?, ?)] *)
Definition insert_answer (a : answer_row) : M unit :=
  at_point AtInsertAnswer;;
  d ← gets working;
  modify (set_working (mkDb (Questions d) (Answers d ++ [a]) (CoupleState d))).

Definition count_answers (question_id : Z) (user : string) : M Z :=
  at_point AtCountAnswers;;
  gets (fun t => count_rows (working t) question_id user).

(** [SELECT ... FROM CoupleState WHERE id = 1] followed by [fetchone()] *)
Definition select_state : M (option couple_state) :=
  at_point AtSelectState;;
  gets (fun t => CoupleState (working t)).

(** [UPDATE CoupleState SET ... WHERE id = 1] *)
Definition update_state (st : couple_state) : M unit :=
  at_point AtUpdateState;;
  d ← gets working;
  modify (set_working
    (mkDb (Questions d) (Answers d)
          (match CoupleState d with Some _ => Some st | None => None end))).

(** [db.commit()] *)
Definition commit : M unit :=
  at_point AtCommit;;
  modify (fun t => mkTxn (working t) (working t) (files t) (filepath_local t)).

(** The body of the [try] block of [post_answer]; returns
    [point_awarded_this_time]. *)
Definition transaction (user_id question_text source : string)
    (audio_file : upload) : M Z :=
  question_row ← select_question question_text;
  question_id ← match question_row with
                 | Some row => mret (q_id row)
                 | None => insert_question question_text
                 end;
  ext ← match PyStr.rsplit1_tail "." (filename audio_file) with
         | Some x => mret (PyStr.lower x)
         | None => raise (PlainException "list index out of range")
         end;
  let unique_filename := fresh_uuid e +:+ "." +:+ ext in
  let filepath := upload_path unique_filename in
  modify (fun t => mkTxn (committed t) (working t) (files t) (Some filepath));;
  save filepath;;
  insert_answer (mkAnswer question_id user_id unique_filename (now_ms e));;
  let other_user := other_of user_id in
  other_answered_count ← count_answers question_id other_user;
  let points_to_add := award other_answered_count in
  let point_awarded_this_time := points_to_add in
  state ← select_state;
  match state with
  | None => raise (PlainException "CoupleState not found during update")
  | Some st =>
      update_state (recompute_state (clock_today e) (clock_yesterday e)
                                    source points_to_add st);;
      commit;;
      mret point_awarded_this_time
  end.

(** The input validation of [post_answer]: the error text of the 400
    reply, or the four values the transaction works on. *)
Definition validate (r : request) : string + (string * string * string * upload) :=
  match form_userId r with
  | None => inl "Missing or invalid userId"
  | Some user_id =>
  if negb (bool_decide (user_id ∈ USERS)) then inl "Missing or invalid userId" else
  match form_questionText r with
  | None => inl "Missing questionText"
  | Some raw_text =>
  if negb (PyStr.truthy raw_text) then inl "Missing questionText" else
  match form_source r with
  | None => inl "Missing or invalid source"
  | Some source =>
  if negb (bool_decide (source ∈ ["manual"; "random"]))
  then inl "Missing or invalid source" else
  match files_audioFile r with
  | None => inl "Missing audioFile"
  | Some audio_file =>
  let question_text := PyStr.strip raw_text in
  if negb (PyStr.truthy (filename audio_file)) || negb (allowed_file (filename audio_file))
  then inl "Invalid audio file type"
  else inr (user_id, question_text, source, audio_file)
  end end end end.

(** The file cleanup of the exception handler: the folder afterwards and
    the line printed. *)
Definition cleanup (t : txn) : gset string * list string :=
  match filepath_local t with
  | Some filepath =>
      if bool_decide (filepath ∈ files t) then
        match remove_fails e with
        | None => (files t ∖ {[filepath]},
                   ["Cleaned up audio file: " +:+ filepath])
        | Some remove_err =>
            (files t,
             ["Error cleaning up audio file " +:+ filepath +:+ ": " +:+ remove_err])
        end
      else (files t, [])
  | None => (files t, [])
  end.

(** The reply of a committed submission, from the row read back. *)
Definition success_reply (point_awarded_this_time : Z)
    (final_state : option couple_state) : answer_reply :=
  let today_str_check := clock_today_check e in
  let fresh (flag : couple_state -> Z) :=
    match final_state with
    | Some st => if bool_decide (daily_progress_date st = Some today_str_check)
                 then flag st else 0
    | None => 0
    end in
  mkAnswerReply "Answer saved successfully" point_awarded_this_time
    (mkSnapshot
       (match final_state with Some st => love_points st | None => 0 end)
       (match final_state with Some st => streak_count st | None => 0 end)
       (match final_state with
        | Some st => last_streak_update_date st
        | None => Some (clock_yesterday_reply e)
        end)
       (fresh daily_random_answered)
       (fresh daily_manual_answered)).

(** POST /api/answer *)
Definition post_answer (s : system) (r : request) : system * response :=
  match validate r with
  | inl error => (s, mkResponse 400 (ErrorJson error))
  | inr (user_id, question_text, source, audio_file) =>
      match transaction user_id question_text source audio_file
              (mkTxn (db s) (db s) (fs s) None) with
      | (t, inl x) =>
          let rolled_back :=
            "ERROR during answer processing, transaction rolled back: " +:+ exn_str x in
          let '(files', cleaned) := cleanup t in
          (mkSystem (committed t) files' (stdout s ++ rolled_back :: cleaned),
           mkResponse 500 (ErrorJson ("Failed to process answer: " +:+ exn_str x)))
      | (t, inr point_awarded_this_time) =>
          match fault e AtReadBack with
          | Some _ =>
              (* raised outside the try: nothing is undone, nobody catches it *)
              (mkSystem (committed t) (files t) (stdout s),
               mkResponse 500 InternalServerError)
          | None =>
              (mkSystem (committed t) (files t) (stdout s),
               mkResponse 201
                 (AnswerJson (success_reply point_awarded_this_time
                                            (CoupleState (working t)))))
          end
      end
  end.

End Transaction.

(** ** Python containers used by the readers *)

(** A Python [dict] whose iteration order is observed: an association
    list in insertion order; assigning to a present key keeps its place. *)
Section ODict.

Context {K V : Type} `{EqDecision K}.

Fixpoint odict_get (k : K) (d : list (K * V)) : option V :=
  match d with
  | [] => None
  | (k', v) :: d' => if decide (k' = k) then Some v else odict_get k d'
  end.

Fixpoint odict_set (k : K) (v : V) (d : list (K * V)) : list (K * V) :=
  match d with
  | [] => [(k, v)]
  | (k', v') :: d' =>
      if decide (k' = k) then (k, v) :: d' else (k', v') :: odict_set k v d'
  end.

(** [{key(row): value(row) for row in rows}] *)
Definition odict_of {R} (key : R -> K) (value : R -> V) (rows : list R)
  : list (K * V) :=
  foldl (fun d row => odict_set (key row) (value row) d) [] rows.

End ODict.

(** [sorted(l, key=key, reverse=True)]: descending and stable, elements
    with equal keys keep their order. Also used for [ORDER BY ... DESC],
    where SQLite leaves the order of equal keys open. *)
Section SortDesc.

Context {A : Type} (key : A -> Z).

Fixpoint insert_desc (x : A) (l : list A) : list A :=
  match l with
  | [] => [x]
  | y :: l' => if key x <? key y then y :: insert_desc x l' else x :: l
  end.

Definition sort_desc (l : list A) : list A := foldr insert_desc [] l.

(** The order of a list that is descending by [key]. *)
Definition desc (a b : A) : Prop := key b <= key a.

End SortDesc.

(** [max(l, default=d)] *)
Definition max_default (l : list Z) (d : Z) : Z :=
  match l with
  | [] => d
  | x :: rest => foldr Z.max x rest
  end.

(** ** GET /api/state *)

Definition get_state (today_str : string) (s : system) : system * response :=
  match CoupleState (db s) with
  | Some state_row =>
      let random_done :=
        if bool_decide (daily_progress_date state_row = Some today_str)
        then daily_random_answered state_row else 0 in
      let manual_done :=
        if bool_decide (daily_progress_date state_row = Some today_str)
        then daily_manual_answered state_row else 0 in
      (s, mkResponse 200 (StateJson
            (mkSnapshot (love_points state_row) (streak_count state_row)
                        (last_streak_update_date state_row)
                        random_done manual_done)))
  | None => (s, mkResponse 500 (ErrorJson "Could not retrieve couple state"))
  end.

(** ** GET /api/history *)

(** [url_for('serve_audio', filename=name, _external=False)] for a name
    that needs no URL quoting. *)
Definition url_for_serve_audio (name : string) : string := "/api/audio/" +:+ name.

(** The body of the loop over the answer rows. *)
Definition record_answer (questions : list (Z * history_entry))
    (answer_row : answer_row) : list (Z * history_entry) :=
  let q_id := a_question_id answer_row in
  match odict_get q_id questions with
  | Some q =>
      let user := a_user_id answer_row in
      let audio_url := url_for_serve_audio (a_audio_filename answer_row) in
      if match h_answers q !! user with
         | None => true
         | Some shown => timestamp shown <? a_timestamp answer_row
         end
      then odict_set q_id
             (mkHistory (h_id q) (h_text q)
                (<[user := mkView audio_url (a_timestamp answer_row)]> (h_answers q)))
             questions
      else questions
  | None => questions
  end.

(** The sort key of [history_list]. *)
Definition latest_timestamp (q : history_entry) : Z :=
  max_default (timestamp <$> (map_to_list (h_answers q)).*2) 0.

Definition history_of (question_rows : list question_row)
    (answer_rows : list answer_row) : list history_entry :=
  let questions :=
    odict_of q_id (fun row => mkHistory (q_id row) (q_text row) ∅) question_rows in
  let questions := foldl record_answer questions answer_rows in
  sort_desc latest_timestamp (questions.*2).

Definition get_history (s : system) : system * response :=
  let questions_cur := sort_desc q_id (Questions (db s)) in
  let answers_cur := sort_desc a_timestamp (Answers (db s)) in
  (s, mkResponse 200 (HistoryJson (history_of questions_cur answers_cur))).

(** ** GET /api/audio/<path:filename> *)

(** File-system calls a request makes, in order. *)
Inductive fs_call := IsFile (path : string).

(** Flask's [send_from_directory(directory, filename)] on the upload
    folder, for a name that is already in normal form (no empty or [.]
    segment) and a folder that does not change during the call: the joined
    path is probed, a path that is not an existing file raises
    [werkzeug.exceptions.NotFound], an existing one is served. The library
    also normalises the name before joining, and opening the file can raise
    [FileNotFoundError] if the file vanishes after the probe; neither is part
    of this model, and [serve_audio_with] below is the handler for any
    behaviour of the call. *)
Definition send_from_directory (files : gset string) (name : string)
  : (exn + string) * list fs_call :=
  let path := upload_path name in
  (if bool_decide (path ∈ files) then inr path else inl NotFound, [IsFile path]).

(** The handler, for any behaviour [send] of the library call. *)
Definition serve_audio_with (send : string -> (exn + string) * list fs_call)
    (filename : string) : response * list fs_call :=
  if PyStr.contains ".." filename || PyStr.startswith filename "/"
  then (mkResponse 400 (ErrorJson "Invalid filename"), [])
  else
    match send filename with
    | (inr path, calls) => (mkResponse 200 (AudioFile path), calls)
    | (inl (FileNotFoundError _), calls) =>
        (mkResponse 404 (ErrorJson "Audio file not found"), calls)
    | (inl _, calls) =>
        (mkResponse 500 (ErrorJson "Error serving audio file"), calls)
    end.

Definition serve_audio (s : system) (filename : string) : response * list fs_call :=
  serve_audio_with (send_from_directory (fs s)) filename.

(** ** GET /api/pending/<user_id> *)

(** The statements the handler executes, in order. *)
Inductive sql :=
| SelectAnsweredBy (user : string)
| SelectAnsweredAmong (user : string) (question_ids : list Z)
| SelectMaxTimestamp (question_id : Z) (user : string).

(** [SELECT DISTINCT q.id, q.text FROM Questions q JOIN Answers a
     ON q.id = a.question_id WHERE a.user_id = ?] *)
Definition answered_by (d : database) (user : string) : list (Z * string) :=
  remove_dups
    ((fun q => (q_id q, q_text q)) <$>
     filter (fun q => Exists (fun a => a_question_id a = q_id q ∧ a_user_id a = user)
                             (Answers d))
            (Questions d)).

(** [SELECT DISTINCT question_id FROM Answers WHERE user_id = ? AND
     question_id IN (...)] *)
Definition answered_among (d : database) (user : string) (ids : list Z) : list Z :=
  remove_dups
    (a_question_id <$>
     filter (fun a => a_user_id a = user ∧ a_question_id a ∈ ids) (Answers d)).

(** [SELECT MAX(timestamp) FROM Answers WHERE question_id = ? AND
     user_id = ?]; NULL over no rows. *)
Definition max_timestamp (d : database) (question_id : Z) (user : string) : option Z :=
  match a_timestamp <$>
        filter (fun a => a_question_id a = question_id ∧ a_user_id a = user)
               (Answers d) with
  | [] => None
  | x :: rest => Some (foldr Z.max x rest)
  end.

(** [v or 0] for a fetched integer. *)
Definition or_zero (v : option Z) : Z :=
  match v with
  | Some n => if truthyZ n then n else 0
  | None => 0
  end.

Definition get_pending_questions (s : system) (user_id : string)
  : response * list sql :=
  if negb (bool_decide (user_id ∈ USERS))
  then (mkResponse 400 (ErrorJson "Invalid user ID"), [])
  else
    let other_user := other_of user_id in
    let other_user_answered_questions : list (Z * string) :=
      odict_of fst snd (answered_by (db s) other_user) in
    match other_user_answered_questions with
    | [] => (mkResponse 200 (PendingJson []), [SelectAnsweredBy other_user])
    | _ =>
        let keys := other_user_answered_questions.*1 in
        let current_user_answered_ids : gset Z :=
          list_to_set (answered_among (db s) user_id keys) in
        let to_do :=
          filter (fun item => item.1 ∉ current_user_answered_ids)
                 other_user_answered_questions in
        let pending_questions :=
          (fun item => mkPending item.1 item.2 other_user
                         (or_zero (max_timestamp (db s) item.1 other_user)))
          <$> to_do in
        (mkResponse 200 (PendingJson (sort_desc p_timestamp pending_questions)),
         SelectAnsweredBy other_user :: SelectAnsweredAmong user_id keys ::
         ((fun item => SelectMaxTimestamp item.1 other_user) <$> to_do))
    end.

(** ** Bootstrap and the operations of the running system *)

(** The column defaults of table CoupleState come from schema.sql, which
    is not among the sources; they are parameters of the bootstrap. *)
Record schema_defaults := mkDefaults {
  default_daily_progress_date : option string;
  default_daily_random_answered : Z;
  default_daily_manual_answered : Z
}.

(** The row inserted by [init_db] when table CoupleState has no row 1. *)
Definition default_couple_state (sd : schema_defaults) (yesterday_str : string)
  : couple_state :=
  mkState 0 0 (Some yesterday_str)
          (default_daily_progress_date sd)
          (default_daily_random_answered sd)
          (default_daily_manual_answered sd).

(** [init_db] on a database whose tables exist: the aggregate row is
    added only when it is absent. *)
Definition init_db (sd : schema_defaults) (yesterday_str : string)
    (d : database) : database :=
  match CoupleState d with
  | None => mkDb (Questions d) (Answers d)
                 (Some (default_couple_state sd yesterday_str))
  | Some _ => d
  end.

(** The system at first boot: empty tables, empty upload folder. *)
Definition boot (sd : schema_defaults) (yesterday_str : string) : system :=
  mkSystem (init_db sd yesterday_str (mkDb [] [] None)) ∅ [].

(** One request to one of the five API routes. *)
Inductive op :=
| PostAnswer (e : env) (r : request)
| GetState (today_str : string)
| GetHistory
| ServeAudio (filename : string)
| GetPending (user_id : string).

Definition run_op (s : system) (o : op) : system * response :=
  match o with
  | PostAnswer e r => post_answer e s r
  | GetState today_str => get_state today_str s
  | GetHistory => get_history s
  | ServeAudio filename => (s, (serve_audio s filename).1)
  | GetPending user_id => (s, (get_pending_questions s user_id).1)
  end.

Definition run_ops (s : system) (ops : list op) : system :=
  foldl (fun s o => (run_op s o).1) s ops.

(** [lovePoints] as stored; [None] when the aggregate row is missing. *)
Definition stored_points (s : system) : option Z :=
  love_points <$> CoupleState (db s).

(** ** Specification-side helpers *)

(** The question id the transaction resolves a text to, and the
    Questions table afterwards. *)
Definition resolve_question (d : database) (text : string) : Z * list question_row :=
  match List.find (fun q => bool_decide (q_text q = text)) (Questions d) with
  | Some row => (q_id row, Questions d)
  | None => let id := next_rowid (q_id <$> Questions d) in
            (id, Questions d ++ [mkQuestion id text])
  end.

(** The id of the row of table Questions with the given text. *)
Definition question_id_of (d : database) (text : string) : option Z :=
  q_id <$> List.find (fun q => bool_decide (q_text q = text)) (Questions d).

(** What one history entry shows of the answer rows [rows] for question
    [question_id]: for each user no entry when the user has no row for the
    question, and otherwise the file and timestamp of one of the user's
    rows, whose timestamp no other row of that user for the question
    exceeds. *)
Definition shows_latest (rows : list answer_row) (question_id : Z)
    (answers : gmap string answer_view) : Prop :=
  forall user,
    match answers !! user with
    | None =>
        forall a, a ∈ rows -> a_question_id a = question_id -> a_user_id a ≠ user
    | Some shown =>
        (exists a, a ∈ rows /\ a_question_id a = question_id /\
                   a_user_id a = user /\
                   shown = mkView (url_for_serve_audio (a_audio_filename a))
                                  (a_timestamp a)) /\
        (forall a, a ∈ rows -> a_question_id a = question_id ->
                   a_user_id a = user -> a_timestamp a <= timestamp shown)
    end.

(** The effect of one answer row on the history entry stored under
    [question_id]. *)
Definition absorb (question_id : Z) (q : history_entry) (answer_row : answer_row)
  : history_entry :=
  if decide (a_question_id answer_row = question_id) then
    if match h_answers q !! a_user_id answer_row with
       | None => true
       | Some shown => timestamp shown <? a_timestamp answer_row
       end
    then mkHistory (h_id q) (h_text q)
           (<[a_user_id answer_row :=
                mkView (url_for_serve_audio (a_audio_filename answer_row))
                       (a_timestamp answer_row)]> (h_answers q))
    else q
  else q.

(** Some row of [rows] answers [question_id] for [user]. *)
Definition answered (rows : list answer_row) (question_id : Z) (user : string)
  : Prop :=
  exists a, a ∈ rows /\ a_question_id a = question_id /\ a_user_id a = user.

(** ** Sample data *)

Module Sample.

Definition quiet : io_point -> option exn := fun _ => None.

Definition day2 : env :=
  mkEnv "2025-01-02" "2025-01-01" "2025-01-02" "2025-01-01" "u1" 1000 quiet false None.

Definition day2_later : env :=
  mkEnv "2025-01-02" "2025-01-01" "2025-01-02" "2025-01-01" "u2" 2000 quiet false None.

Definition day2_update_fails : env :=
  mkEnv "2025-01-02" "2025-01-01" "2025-01-02" "2025-01-01" "u3" 3000
        (fun p => match p with
                  | AtUpdateState => Some (SqliteError "database is locked")
                  | _ => None
                  end)
        false (Some "Permission denied").

Definition defaults : schema_defaults := mkDefaults None 0 0.

Definition fresh : system := boot defaults "2025-01-01".

Definition nidhi_color : request :=
  mkRequest (Some "nidhi") (Some "  Favorite color? ") (Some "manual")
            (Some (mkUpload "take1.WebM")).

Definition arpan_color : request :=
  mkRequest (Some "arpan") (Some "Favorite color?") (Some "random")
            (Some (mkUpload "reply.mp3")).

Definition arpan_blank : request :=
  mkRequest (Some "arpan") (Some "   ") (Some "random")
            (Some (mkUpload "reply.mp3")).

Definition journal : database :=
  mkDb [mkQuestion 1 "A"; mkQuestion 2 "B"; mkQuestion 3 "C"]
       [mkAnswer 1 "nidhi" "f1.webm" 10; mkAnswer 1 "nidhi" "f2.webm" 30;
        mkAnswer 1 "arpan" "f3.webm" 20; mkAnswer 2 "arpan" "f4.webm" 50;
        mkAnswer 2 "arpan" "f5.webm" 40]
       (Some (mkState 7 2 (Some "2025-01-01") (Some "2025-01-02") 1 0)).

Definition running : system := mkSystem journal {[ "audio_uploads/f1.webm" ]} [].

End Sample.

(** ** Definitions for the properties of the whole system *)

(** No call of the request raises. *)
Definition quiet_store (e : env) : Prop := forall p, fault e p = None.

(** The same environment, except that the read after the commit does not
    raise. *)
Definition reading_back (e : env) : env :=
  mkEnv (clock_today e) (clock_yesterday e) (clock_today_check e)
        (clock_yesterday_reply e) (fresh_uuid e) (now_ms e)
        (fun p => match p with AtReadBack => None | _ => fault e p end)
        (save_leaves_file e) (remove_fails e).



(** Question ids are distinct. *)
Definition ids_distinct (d : database) : Prop := NoDup (q_id <$> Questions d).

(** Question texts are distinct. *)
Definition texts_distinct (d : database) : Prop := NoDup (q_text <$> Questions d).

(** Question texts carry no leading or trailing whitespace. *)
Definition texts_trimmed (d : database) : Prop :=
  forall q, q ∈ Questions d -> PyStr.strip (q_text q) = q_text q.

(** Every answer is by one of the two users and refers to a stored
    question. *)
Definition answers_refer (d : database) : Prop :=
  forall a, a ∈ Answers d ->
    a_user_id a ∈ USERS /\ exists q, q ∈ Questions d /\ q_id q = a_question_id a.

(** A name that passes the check of [serve_audio]. *)
Definition safe_name (name : string) : Prop :=
  PyStr.contains ".." name = false /\ PyStr.startswith name "/" = false.

(** * Properties *)

(** ** Strings *)

Lemma other_of_ne user_id : other_of user_id ≠ user_id.
Proof. unfold other_of. case_decide; subst; [discriminate | congruence]. Qed.

Lemma other_of_users user_id : other_of user_id ∈ USERS.
Proof. unfold other_of, USERS. case_decide; set_solver. Qed.

(** ** The transaction *)

Ltac unfold_txn :=
  unfold transaction, select_question, insert_question, save, insert_answer,
    count_answers, select_state, update_state, commit, at_point, raise, gets,
    modify, set_working;
  unfold mbind, M_bind, mret, M_ret; simpl.

(** Case analysis on whether the call at point [p] raises; [tac] closes
    the case where it does. *)
Ltac on_fault e p H tac :=
  destruct (fault e p) eqn:?; simpl in H; [tac|].

Lemma count_rows_app_other qs1 qs2 answers a st1 st2 question_id user :
  a_user_id a ≠ user ->
  count_rows (mkDb qs1 (answers ++ [a]) st1) question_id user =
  count_rows (mkDb qs2 answers st2) question_id user.
Proof.
  intros Hne. unfold count_rows. simpl.
  rewrite filter_app. rewrite (filter_cons_False _ a []).
  - by rewrite app_nil_r.
  - intros [_ Hu]. done.
Qed.

(** What a transaction body that returns has done. *)
Lemma transaction_returns e user_id question_text source audio_file t0 t p :
  transaction e user_id question_text source audio_file t0 = (t, inr p) ->
  exists x st,
    PyStr.rsplit1_tail "." (filename audio_file) = Some x /\
    CoupleState (working t0) = Some st /\
    let '(question_id, questions') := resolve_question (working t0) question_text in
    let unique_filename := fresh_uuid e +:+ "." +:+ PyStr.lower x in
    let answers' := Answers (working t0) ++
                    [mkAnswer question_id user_id unique_filename (now_ms e)] in
    p = award (count_rows (mkDb questions' answers' (Some st))
                          question_id (other_of user_id)) /\
    working t = mkDb questions' answers'
                  (Some (recompute_state (clock_today e) (clock_yesterday e)
                                         source p st)) /\
    committed t = working t /\
    files t = {[upload_path unique_filename]} ∪ files t0.
Proof.
  unfold_txn. unfold resolve_question.
  intros H.
  on_fault e AtSelectQuestion H discriminate.
  destruct (List.find _ _) eqn:Hf; simpl in H;
    [|on_fault e AtInsertQuestion H discriminate].
  all: destruct (PyStr.rsplit1_tail _ _) eqn:Hx; simpl in H; [|discriminate].
  all: on_fault e AtSaveAudio H ltac:(by destruct (save_leaves_file e)).
  all: on_fault e AtInsertAnswer H discriminate.
  all: on_fault e AtCountAnswers H discriminate.
  all: on_fault e AtSelectState H discriminate.
  all: destruct (CoupleState (working t0)) eqn:Hst; simpl in H; [|discriminate].
  all: on_fault e AtUpdateState H discriminate.
  all: on_fault e AtCommit H discriminate.
  all: injection H as <- <-; simpl.
  all: eexists _, _; split; [reflexivity|]; split; [reflexivity|].
  all: unfold count_rows; simpl; auto.
Qed.

(** What a transaction body that raises leaves behind: nothing is
    committed, and the upload folder gained at most the file at
    [filepath]. *)
Lemma transaction_raises e user_id question_text source audio_file t0 t x :
  filepath_local t0 = None ->
  transaction e user_id question_text source audio_file t0 = (t, inl x) ->
  committed t = committed t0 /\
  match filepath_local t with
  | None => files t = files t0
  | Some path => files t = files t0 \/ files t = {[path]} ∪ files t0
  end.
Proof.
  unfold_txn. intros H0 H.
  on_fault e AtSelectQuestion H ltac:(injection H as <- <-; simpl; rewrite ?H0; by auto).
  destruct (List.find _ _) eqn:Hf; simpl in H;
    [|on_fault e AtInsertQuestion H
        ltac:(injection H as <- <-; simpl; rewrite ?H0; by auto)].
  all: destruct (PyStr.rsplit1_tail _ _) eqn:Hx; simpl in H;
    [|injection H as <- <-; simpl; rewrite ?H0; by auto].
  all: on_fault e AtSaveAudio H
         ltac:(destruct (save_leaves_file e); injection H as <- <-; simpl; by auto).
  all: on_fault e AtInsertAnswer H ltac:(injection H as <- <-; simpl; by auto).
  all: on_fault e AtCountAnswers H ltac:(injection H as <- <-; simpl; by auto).
  all: on_fault e AtSelectState H ltac:(injection H as <- <-; simpl; by auto).
  all: destruct (CoupleState (working t0)) eqn:Hst; simpl in H;
    [|injection H as <- <-; simpl; by auto].
  all: on_fault e AtUpdateState H ltac:(injection H as <- <-; simpl; by auto).
  all: on_fault e AtCommit H ltac:(injection H as <- <-; simpl; by auto).
  all: discriminate.
Qed.

(** ** The handler of POST /api/answer *)

Lemma validate_accepts r user_id question_text source audio_file :
  validate r = inr (user_id, question_text, source, audio_file) ->
  form_userId r = Some user_id /\ user_id ∈ USERS /\
  (exists raw_text, form_questionText r = Some raw_text /\ raw_text ≠ "" /\
                    question_text = PyStr.strip raw_text) /\
  form_source r = Some source /\ source ∈ ["manual"; "random"] /\
  files_audioFile r = Some audio_file /\
  allowed_file (filename audio_file) = true.
Proof.
  unfold validate. intros H.
  destruct (form_userId r) as [u|]; [|discriminate].
  case_bool_decide as Hu; simpl in H; [|discriminate].
  destruct (form_questionText r) as [raw|]; [|discriminate].
  destruct (PyStr.truthy raw) eqn:Hraw; simpl in H; [|discriminate].
  destruct (form_source r) as [src|]; [|discriminate].
  case_bool_decide as Hs; simpl in H; [|discriminate].
  destruct (files_audioFile r) as [af|]; [|discriminate].
  destruct (PyStr.truthy (filename af)); simpl in H; [|discriminate].
  destruct (allowed_file (filename af)) eqn:Haf; simpl in H; [|discriminate].
  injection H as <- <- <- <-.
  repeat split; auto.
  exists raw. repeat split; auto. intros ->. discriminate.
Qed.

Lemma post_answer_rejected e s r error :
  validate r = inl error ->
  post_answer e s r = (s, mkResponse 400 (ErrorJson error)).
Proof. unfold post_answer. by intros ->. Qed.

(** The three outcomes of the handler. *)
Lemma post_answer_status e s r :
  status (post_answer e s r).2 = 400 \/
  status (post_answer e s r).2 = 500 \/
  status (post_answer e s r).2 = 201.
Proof.
  unfold post_answer.
  destruct (validate r) as [?|[[[??]?]?]]; simpl; auto.
  destruct (transaction _ _ _ _ _ _) as [t [x|p]]; simpl.
  - destruct (cleanup e t); simpl; auto.
  - destruct (fault e AtReadBack); simpl; auto.
Qed.

(** A 201 reply: the request passed validation, the aggregate row was
    present, and the committed database is the old one plus the resolved
    question, the new answer and the recomputed aggregate. *)
Lemma post_answer_created e s r :
  status (post_answer e s r).2 = 201 ->
  exists user_id raw_text source audio_file x st,
    form_userId r = Some user_id /\
    form_questionText r = Some raw_text /\
    form_source r = Some source /\
    files_audioFile r = Some audio_file /\
    PyStr.rsplit1_tail "." (filename audio_file) = Some x /\
    CoupleState (db s) = Some st /\
    let '(question_id, questions') :=
      resolve_question (db s) (PyStr.strip raw_text) in
    let unique_filename := fresh_uuid e +:+ "." +:+ PyStr.lower x in
    let p := award (count_rows (db s) question_id (other_of user_id)) in
    let st' := recompute_state (clock_today e) (clock_yesterday e) source p st in
    post_answer e s r =
      (mkSystem
         (mkDb questions'
               (Answers (db s) ++
                [mkAnswer question_id user_id unique_filename (now_ms e)])
               (Some st'))
         ({[upload_path unique_filename]} ∪ fs s) (stdout s),
       mkResponse 201 (AnswerJson (success_reply e p (Some st')))).
Proof.
  unfold post_answer.
  destruct (validate r) as [?|[[[user_id question_text] source] audio_file]] eqn:Hv;
    simpl; [discriminate|].
  destruct (transaction _ _ _ _ _ _) as [t [x|p]] eqn:Ht; simpl.
  { destruct (cleanup e t); simpl. discriminate. }
  destruct (fault e AtReadBack) eqn:Hrb; simpl; [discriminate|].
  intros _.
  apply validate_accepts in Hv as (Hu & _ & (raw & Hq & _ & ->) & Hs & _ & Hf & _).
  apply transaction_returns in Ht as (x & st & Hx & Hst & Ht). simpl in Hst, Ht.
  exists user_id, raw, source, audio_file, x, st.
  repeat (split; [assumption|]).
  destruct (resolve_question (db s) (PyStr.strip raw)) as [question_id questions'].
  destruct Ht as (Hp & Hw & Hc & Hfiles).
  rewrite (count_rows_app_other _ (Questions (db s)) _ _ _ (CoupleState (db s))) in Hp
    by (simpl; apply not_eq_sym, other_of_ne).
  replace (mkDb (Questions (db s)) (Answers (db s)) (CoupleState (db s)))
    with (db s) in Hp by (by destruct (db s)).
  rewrite Hc, Hw, Hfiles. simpl. by rewrite <- Hp.
Qed.

(** ** Points and streak *)

Lemma award_values n : award n = 1 \/ award n = 5.
Proof. unfold award. destruct (n =? 0); auto. Qed.

Lemma award_positive n : 0 < award n.
Proof. destruct (award_values n) as [-> | ->]; lia. Qed.

Lemma recompute_points today yesterday source p st :
  love_points (recompute_state today yesterday source p st) = love_points st + p.
Proof. unfold recompute_state. by repeat case_match. Qed.

Lemma find_app_none {A} (f : A -> bool) (l1 l2 : list A) :
  List.find f l1 = None -> List.find f (l1 ++ l2) = List.find f l2.
Proof.
  induction l1 as [|a l1 IH]; simpl; [done|].
  destruct (f a); [discriminate | exact IH].
Qed.

Lemma resolve_question_found d text :
  question_id_of
    (mkDb (resolve_question d text).2 (Answers d) (CoupleState d)) text
  = Some (resolve_question d text).1.
Proof.
  unfold question_id_of, resolve_question. simpl.
  destruct (List.find _ (Questions d)) as [row|] eqn:Hf; simpl.
  - by rewrite Hf.
  - rewrite find_app_none by exact Hf. simpl. by rewrite bool_decide_eq_true_2.
Qed.

(** The count is 0 exactly when no row of Answers is an answer of the
    user to the question. *)
Lemma count_rows_zero d question_id user :
  count_rows d question_id user = 0 <->
  forall a, a ∈ Answers d -> a_question_id a = question_id -> a_user_id a ≠ user.
Proof.
  unfold count_rows. induction (Answers d) as [|a l IH]; simpl.
  - split; [intros _ a Ha; by apply elem_of_nil in Ha | done].
  - rewrite filter_cons. case_decide as Ha; simpl.
    + split; [lia|]. intros Hall. exfalso.
      destruct Ha as [Hq Hu]. apply (Hall a); [left|done|done].
    + rewrite IH. split.
      * intros Hall a' [->|Hin]%elem_of_cons Hq Hu; [by apply Ha|].
        by apply (Hall a').
      * intros Hall a' Hin. apply Hall. by right.
Qed.

(** C1. For every successful answer submission, with the counterpart
    being arpan for nidhi and nidhi for arpan: the points awarded are 1 when
    no row of Answers is an answer of the counterpart to the resolved
    question, and 5 when some row is; the rows of the counterpart at the
    time of the count are those stored before the request, as the row
    inserted just before the count is the submitter's own. The stored
    [love_points] grows by exactly the awarded amount, and the reply's
    [pointAwarded] reports it. *)
Theorem post_answer_awards_one_or_five e s r :
  status (post_answer e s r).2 = 201 ->
  exists user_id counterpart raw_text question_id st st' reply,
    form_userId r = Some user_id /\
    (user_id = "nidhi" /\ counterpart = "arpan" \/
     user_id = "arpan" /\ counterpart = "nidhi") /\
    form_questionText r = Some raw_text /\
    question_id_of (db (post_answer e s r).1) (PyStr.strip raw_text)
      = Some question_id /\
    (exists q, q ∈ Questions (db (post_answer e s r).1) /\
               q_text q = PyStr.strip raw_text /\ q_id q = question_id) /\
    CoupleState (db s) = Some st /\
    CoupleState (db (post_answer e s r).1) = Some st' /\
    payload (post_answer e s r).2 = AnswerJson reply /\
    (forall a, a_user_id a = counterpart ->
       (a ∈ Answers (db (post_answer e s r).1) <-> a ∈ Answers (db s))) /\
    ((forall a, a ∈ Answers (db s) -> a_question_id a = question_id ->
                a_user_id a ≠ counterpart) ->
     pointAwarded reply = 1) /\
    ((exists a, a ∈ Answers (db s) /\ a_question_id a = question_id /\
                a_user_id a = counterpart) ->
     pointAwarded reply = 5) /\
    love_points st' = love_points st + pointAwarded reply /\
    lovePoints (refreshed reply) = love_points st'.
Proof.
  intros H.
  destruct (post_answer_created e s r H)
    as (user_id & raw & source & audio_file & x & st & Hu & Hq & _ & _ & _ & Hst & Hpost).
  assert (Hcases : user_id = "nidhi" /\ other_of user_id = "arpan" \/
                   user_id = "arpan" /\ other_of user_id = "nidhi").
  { unfold post_answer in H.
    destruct (validate r) as [?|[[[u q] src] af]] eqn:Hv; [discriminate|].
    apply validate_accepts in Hv as (Hu' & Hin & _).
    assert (u = user_id) by congruence. subst u. unfold USERS in Hin.
    apply elem_of_cons in Hin as [->|Hin]; [by left|].
    apply list_elem_of_singleton in Hin as ->. by right. }
  pose proof (resolve_question_found (db s) (PyStr.strip raw)) as Hfound.
  destruct (resolve_question (db s) (PyStr.strip raw)) as [question_id questions'].
  simpl in Hpost, Hfound. rewrite Hpost. simpl.
  set (p := award (count_rows (db s) question_id (other_of user_id))).
  exists user_id, (other_of user_id), raw, question_id, st,
    (recompute_state (clock_today e) (clock_yesterday e) source p st),
    (success_reply e p
       (Some (recompute_state (clock_today e) (clock_yesterday e) source p st))).
  split; [assumption|]. split; [exact Hcases|]. split; [assumption|].
  split; [exact Hfound|].
  split.
  { unfold question_id_of in Hfound. simpl in Hfound.
    destruct (List.find _ questions') as [row|] eqn:Hf; [|discriminate].
    simpl in Hfound. injection Hfound as <-.
    exists row. revert Hf. clear. induction questions' as [|q0 l IH]; simpl; [done|].
    case_bool_decide as Hq0.
    - intros [= <-]. split; [left|done].
    - intros Hf. destruct (IH Hf) as (? & ? & ?). split; [by right|done]. }
  split; [assumption|]. split; [reflexivity|]. split; [reflexivity|].
  split.
  { intros a Ha. rewrite elem_of_app, list_elem_of_singleton. split; [|by left].
    intros [Hin| ->]; [done|]. simpl in Ha. exfalso. by apply (other_of_ne user_id). }
  simpl. subst p. unfold award.
  destruct (Z.eqb_spec (count_rows (db s) question_id (other_of user_id)) 0) as [Hz|Hz].
  - split; [done|]. split; [|by rewrite recompute_points].
    intros (a & Ha & Hqa & Hua). exfalso.
    by apply (proj1 (count_rows_zero _ _ _) Hz a).
  - split; [|split; [done|by rewrite recompute_points]].
    intros Hnone. exfalso. apply Hz. by apply count_rows_zero.
Qed.

Lemma post_answer_awards_one_or_five_witness :
  exists user_id counterpart raw_text question_id st st' reply,
    form_userId Sample.arpan_color = Some user_id /\
    (user_id = "nidhi" /\ counterpart = "arpan" \/
     user_id = "arpan" /\ counterpart = "nidhi") /\
    form_questionText Sample.arpan_color = Some raw_text /\
    question_id_of
      (db (post_answer Sample.day2_later
             (post_answer Sample.day2 Sample.fresh Sample.nidhi_color).1
             Sample.arpan_color).1)
      (PyStr.strip raw_text) = Some question_id /\
    (exists q,
       q ∈ Questions
             (db (post_answer Sample.day2_later
                    (post_answer Sample.day2 Sample.fresh Sample.nidhi_color).1
                    Sample.arpan_color).1) /\
       q_text q = PyStr.strip raw_text /\ q_id q = question_id) /\
    CoupleState (db (post_answer Sample.day2 Sample.fresh Sample.nidhi_color).1)
      = Some st /\
    CoupleState
      (db (post_answer Sample.day2_later
             (post_answer Sample.day2 Sample.fresh Sample.nidhi_color).1
             Sample.arpan_color).1) = Some st' /\
    payload (post_answer Sample.day2_later
               (post_answer Sample.day2 Sample.fresh Sample.nidhi_color).1
               Sample.arpan_color).2 = AnswerJson reply /\
    (forall a, a_user_id a = counterpart ->
       (a ∈ Answers
              (db (post_answer Sample.day2_later
                     (post_answer Sample.day2 Sample.fresh Sample.nidhi_color).1
                     Sample.arpan_color).1) <->
        a ∈ Answers (db (post_answer Sample.day2 Sample.fresh
                                     Sample.nidhi_color).1))) /\
    ((forall a,
        a ∈ Answers (db (post_answer Sample.day2 Sample.fresh Sample.nidhi_color).1) ->
        a_question_id a = question_id -> a_user_id a ≠ counterpart) ->
     pointAwarded reply = 1) /\
    ((exists a,
        a ∈ Answers (db (post_answer Sample.day2 Sample.fresh Sample.nidhi_color).1) /\
        a_question_id a = question_id /\ a_user_id a = counterpart) ->
     pointAwarded reply = 5) /\
    love_points st' = love_points st + pointAwarded reply /\
    lovePoints (refreshed reply) = love_points st'.
Proof.
  apply (post_answer_awards_one_or_five Sample.day2_later
           (post_answer Sample.day2 Sample.fresh Sample.nidhi_color).1
           Sample.arpan_color).
  vm_compute. reflexivity.
Defined.

(** The streak rule, for a positive award. *)
Lemma recompute_streak today yesterday source p st :
  0 < p ->
  let st' := recompute_state today yesterday source p st in
  let last := last_streak_update_date st in
  (last ≠ Some today -> last = Some yesterday ->
     streak_count st' = streak_count st + 1 /\
     last_streak_update_date st' = Some today) /\
  (last ≠ Some today -> last ≠ Some yesterday ->
     streak_count st' = 1 /\ last_streak_update_date st' = Some today) /\
  (last = Some today ->
     streak_count st' = streak_count st /\ last_streak_update_date st' = last).
Proof.
  intros Hp. unfold recompute_state.
  apply Z.ltb_lt in Hp. rewrite Hp. simpl.
  repeat split.
  all: intros; repeat case_bool_decide; simpl; repeat case_match; simpl; congruence.
Qed.

(** C2. For every successful (hence point-awarding) submission: when the
    stored [last_streak_update_date] differs from today and equals
    yesterday, [streak_count] grows by exactly 1 and the date becomes today;
    when it differs from today and is not yesterday (a gap, or NULL),
    [streak_count] becomes 1 and the date becomes today; when it already
    equals today both are unchanged. Hence a second successful submission on
    the same calendar day changes neither the streak nor the date. *)
Theorem post_answer_streak_rule e s r :
  status (post_answer e s r).2 = 201 ->
  exists st st',
    CoupleState (db s) = Some st /\
    CoupleState (db (post_answer e s r).1) = Some st' /\
    let last := last_streak_update_date st in
    (last ≠ Some (clock_today e) -> last = Some (clock_yesterday e) ->
       streak_count st' = streak_count st + 1 /\
       last_streak_update_date st' = Some (clock_today e)) /\
    (last ≠ Some (clock_today e) -> last ≠ Some (clock_yesterday e) ->
       streak_count st' = 1 /\
       last_streak_update_date st' = Some (clock_today e)) /\
    (last = Some (clock_today e) ->
       streak_count st' = streak_count st /\
       last_streak_update_date st' = last) /\
    (forall e2 r2,
       clock_today e2 = clock_today e ->
       status (post_answer e2 (post_answer e s r).1 r2).2 = 201 ->
       exists st'',
         CoupleState (db (post_answer e2 (post_answer e s r).1 r2).1) = Some st'' /\
         streak_count st'' = streak_count st' /\
         last_streak_update_date st'' = last_streak_update_date st' /\
         last_streak_update_date st'' = Some (clock_today e)).
Proof.
  intros H.
  destruct (post_answer_created e s r H)
    as (user_id & raw & source & audio_file & x & st & _ & _ & _ & _ & _ & Hst & Hpost).
  destruct (resolve_question (db s) (PyStr.strip raw)) as [question_id questions'].
  simpl in Hpost. rewrite Hpost. simpl.
  set (p := award (count_rows (db s) question_id (other_of user_id))) in *.
  set (st' := recompute_state (clock_today e) (clock_yesterday e) source p st) in *.
  exists st, st'. split; [assumption|]. split; [reflexivity|].
  pose proof (recompute_streak (clock_today e) (clock_yesterday e) source p st
                (award_positive _)) as (Hy & Hgap & Hsame).
  fold st' in Hy, Hgap, Hsame.
  split; [exact Hy|]. split; [exact Hgap|]. split; [exact Hsame|].
  assert (Htoday : last_streak_update_date st' = Some (clock_today e)).
  { destruct (decide (last_streak_update_date st = Some (clock_today e))) as [Heq|Hne].
    - destruct (Hsame Heq) as [_ ->]. exact Heq.
    - destruct (decide (last_streak_update_date st = Some (clock_yesterday e))) as [Hy'|Hn'].
      + by destruct (Hy Hne Hy').
      + by destruct (Hgap Hne Hn'). }
  intros e2 r2 He2 H2.
  destruct (post_answer_created e2 _ r2 H2)
    as (user2 & raw2 & source2 & audio2 & x2 & st2 & _ & _ & _ & _ & _ & Hst2 & Hpost2).
  simpl in Hst2. injection Hst2 as <-.
  destruct (resolve_question _ (PyStr.strip raw2)) as [qid2 questions2].
  rewrite Hpost2. simpl.
  eexists. split; [reflexivity|].
  pose proof (recompute_streak (clock_today e2) (clock_yesterday e2) source2 _ st'
                (award_positive (count_rows
                   (mkDb questions'
                      (Answers (db s) ++
                       [mkAnswer question_id user_id
                          (fresh_uuid e +:+ "." +:+ PyStr.lower x) (now_ms e)])
                      (Some st')) qid2 (other_of user2))))
    as (_ & _ & Hsame2).
  rewrite He2 in Hsame2. destruct (Hsame2 Htoday) as [Hs Hl].
  simpl. rewrite He2. split; [exact Hs|]. split; [exact Hl|].
  by rewrite Hl.
Qed.

Lemma post_answer_streak_rule_witness :
  exists st st',
    CoupleState (db Sample.fresh) = Some st /\
    CoupleState (db (post_answer Sample.day2 Sample.fresh Sample.nidhi_color).1)
      = Some st' /\
    let last := last_streak_update_date st in
    (last ≠ Some (clock_today Sample.day2) ->
     last = Some (clock_yesterday Sample.day2) ->
       streak_count st' = streak_count st + 1 /\
       last_streak_update_date st' = Some (clock_today Sample.day2)) /\
    (last ≠ Some (clock_today Sample.day2) ->
     last ≠ Some (clock_yesterday Sample.day2) ->
       streak_count st' = 1 /\
       last_streak_update_date st' = Some (clock_today Sample.day2)) /\
    (last = Some (clock_today Sample.day2) ->
       streak_count st' = streak_count st /\
       last_streak_update_date st' = last) /\
    (forall e2 r2,
       clock_today e2 = clock_today Sample.day2 ->
       status (post_answer e2
                 (post_answer Sample.day2 Sample.fresh Sample.nidhi_color).1 r2).2
         = 201 ->
       exists st'',
         CoupleState
           (db (post_answer e2
                  (post_answer Sample.day2 Sample.fresh Sample.nidhi_color).1 r2).1)
           = Some st'' /\
         streak_count st'' = streak_count st' /\
         last_streak_update_date st'' = last_streak_update_date st' /\
         last_streak_update_date st'' = Some (clock_today Sample.day2)).
Proof.
  apply (post_answer_streak_rule Sample.day2 Sample.fresh Sample.nidhi_color).
  vm_compute. reflexivity.
Defined.

(** C10. On every successful answer submission the awarded points are
    exactly 1 or 5, so strictly positive; the stored [love_points] strictly
    grows; and whenever the stored [last_streak_update_date] is not today
    (the first point-awarding submission of the day) the streak branch runs
    and the date becomes today. *)
Theorem post_answer_award_positive e s r :
  status (post_answer e s r).2 = 201 ->
  exists st st' reply,
    CoupleState (db s) = Some st /\
    CoupleState (db (post_answer e s r).1) = Some st' /\
    payload (post_answer e s r).2 = AnswerJson reply /\
    (pointAwarded reply = 1 \/ pointAwarded reply = 5) /\
    0 < pointAwarded reply /\
    love_points st < love_points st' /\
    (last_streak_update_date st ≠ Some (clock_today e) ->
       last_streak_update_date st' = Some (clock_today e) /\
       streak_count st' =
         (if bool_decide (last_streak_update_date st = Some (clock_yesterday e))
          then streak_count st + 1 else 1)).
Proof.
  intros H.
  destruct (post_answer_created e s r H)
    as (user_id & raw & source & audio_file & x & st & _ & _ & _ & _ & _ & Hst & Hpost).
  destruct (resolve_question (db s) (PyStr.strip raw)) as [question_id questions'].
  simpl in Hpost. rewrite Hpost. simpl.
  set (p := award (count_rows (db s) question_id (other_of user_id))) in *.
  eexists st, _, _. split; [assumption|]. split; [reflexivity|]. split; [reflexivity|].
  simpl. split; [apply award_values|]. split; [apply award_positive|].
  rewrite recompute_points. split; [pose proof (award_positive (count_rows (db s) question_id (other_of user_id))) as Hpos; fold p in Hpos; lia|].
  intros Hne.
  pose proof (recompute_streak (clock_today e) (clock_yesterday e) source p st
                (award_positive _)) as (Hy & Hgap & _).
  case_bool_decide as Hyes.
  - destruct (Hy Hne Hyes). auto.
  - destruct (Hgap Hne Hyes). auto.
Qed.

Lemma post_answer_award_positive_witness :
  exists st st' reply,
    CoupleState (db Sample.fresh) = Some st /\
    CoupleState (db (post_answer Sample.day2 Sample.fresh Sample.nidhi_color).1)
      = Some st' /\
    payload (post_answer Sample.day2 Sample.fresh Sample.nidhi_color).2
      = AnswerJson reply /\
    (pointAwarded reply = 1 \/ pointAwarded reply = 5) /\
    0 < pointAwarded reply /\
    love_points st < love_points st' /\
    (last_streak_update_date st ≠ Some (clock_today Sample.day2) ->
       last_streak_update_date st' = Some (clock_today Sample.day2) /\
       streak_count st' =
         (if bool_decide (last_streak_update_date st
                          = Some (clock_yesterday Sample.day2))
          then streak_count st + 1 else 1)).
Proof.
  apply (post_answer_award_positive Sample.day2 Sample.fresh Sample.nidhi_color).
  vm_compute. reflexivity.
Defined.

(** ** Validation and failure *)

Lemma validate_empty_question_text r :
  form_questionText r = None \/ form_questionText r = Some "" ->
  exists error, validate r = inl error.
Proof.
  unfold validate. intros [-> | ->].
  all: destruct (form_userId r); [|eauto]; case_bool_decide; simpl; eauto.
Qed.

(** A submission whose questionText is absent or the empty string is
    answered 400 and changes nothing. *)
Lemma post_answer_empty_question_text e s r :
  form_questionText r = None \/ form_questionText r = Some "" ->
  (post_answer e s r).1 = s /\ status (post_answer e s r).2 = 400.
Proof.
  intros H. destruct (validate_empty_question_text r H) as [error Hv].
  by rewrite (post_answer_rejected e s r error Hv).
Qed.

(** C3 (the code departs from the claim). A questionText made of spaces
    only is not empty when it is tested, and is stripped afterwards: the
    submission passes validation, is answered 201, and leaves a Question row
    whose text is empty, an Answer row and a blob file. *)
Theorem post_answer_accepts_blank_question_text :
  let out := post_answer Sample.day2 Sample.fresh Sample.arpan_blank in
  form_questionText Sample.arpan_blank = Some "   " /\
  PyStr.strip "   " = "" /\
  status out.2 = 201 /\
  Questions (db out.1) = [mkQuestion 1 ""] /\
  Answers (db out.1) = [mkAnswer 1 "arpan" "u1.mp3" 1000] /\
  fs out.1 = {[ "audio_uploads/u1.mp3" ]} /\
  CoupleState (db out.1) ≠ CoupleState (db Sample.fresh).
Proof. vm_compute. repeat split; discriminate. Qed.



(** The transaction body never consults the read after the commit. *)
Lemma transaction_reading_back e user_id question_text source audio_file t0 :
  transaction (reading_back e) user_id question_text source audio_file t0
  = transaction e user_id question_text source audio_file t0.
Proof. reflexivity. Qed.

(** Either the committed database is untouched, or the transaction was
    committed: the system is then the one of the same request answered 201,
    whether or not the read after the commit raises. *)
Lemma post_answer_db_cases e s r :
  db (post_answer e s r).1 = db s \/
  (status (post_answer (reading_back e) s r).2 = 201 /\
   (post_answer e s r).1 = (post_answer (reading_back e) s r).1).
Proof.
  unfold post_answer.
  destruct (validate r) as [?|[[[user_id question_text] source] audio_file]];
    simpl; [by left|].
  rewrite transaction_reading_back.
  destruct (transaction _ _ _ _ _ _) as [t [x|p]] eqn:Ht; simpl.
  - apply transaction_raises in Ht as [Hc _]; [|reflexivity].
    destruct (cleanup e t). simpl. by left.
  - right. by destruct (fault e AtReadBack).
Qed.

(** ** GET /api/state *)

(** C5. The state-snapshot query answers with the stored daily flags when
    the stored [daily_progress_date] is today, and with 0 (false) for both
    flags when it is not; in both cases the system, and so the stored row,
    is the same after the read. *)
Theorem get_state_lazy_flags today_str s st :
  CoupleState (db s) = Some st ->
  (get_state today_str s).1 = s /\
  exists snap,
    (get_state today_str s).2 = mkResponse 200 (StateJson snap) /\
    lovePoints snap = love_points st /\
    streak snap = streak_count st /\
    lastStreakUpdateDate snap = last_streak_update_date st /\
    (daily_progress_date st = Some today_str ->
       dailyRandomAnswered snap = daily_random_answered st /\
       dailyManualAnswered snap = daily_manual_answered st) /\
    (daily_progress_date st ≠ Some today_str ->
       dailyRandomAnswered snap = 0 /\ dailyManualAnswered snap = 0).
Proof.
  intros Hst. unfold get_state. rewrite Hst. simpl.
  split; [reflexivity|].
  eexists. split; [reflexivity|]. simpl.
  repeat split; intros; case_bool_decide; congruence.
Qed.

Lemma get_state_lazy_flags_witness :
  (get_state "2025-01-03" Sample.running).1 = Sample.running /\
  exists snap,
    (get_state "2025-01-03" Sample.running).2 = mkResponse 200 (StateJson snap) /\
    lovePoints snap = 7 /\
    streak snap = 2 /\
    lastStreakUpdateDate snap = Some "2025-01-01" /\
    (Some "2025-01-02" = Some "2025-01-03" ->
       dailyRandomAnswered snap = 1 /\ dailyManualAnswered snap = 0) /\
    (Some "2025-01-02" ≠ Some "2025-01-03" ->
       dailyRandomAnswered snap = 0 /\ dailyManualAnswered snap = 0).
Proof.
  apply (get_state_lazy_flags "2025-01-03" Sample.running
           (mkState 7 2 (Some "2025-01-01") (Some "2025-01-02") 1 0)).
  reflexivity.
Defined.

Lemma get_state_read_only today_str s : (get_state today_str s).1 = s.
Proof. unfold get_state. by destruct (CoupleState (db s)). Qed.

(** ** Monotonicity of the score *)

Lemma run_op_points s o p :
  stored_points s = Some p ->
  exists p', stored_points (run_op s o).1 = Some p' /\ p <= p'.
Proof.
  intros Hp. destruct o as [e r|today_str| |filename|user_id]; simpl.
  - destruct (post_answer_db_cases e s r) as [Hdb|[H201 Heq]].
    + exists p. unfold stored_points in *. rewrite Hdb. split; [done|lia].
    + destruct (post_answer_created (reading_back e) s r H201)
        as (user_id & raw & source & audio_file & x & st & _ & _ & _ & _ & _ & Hst & Hpost).
      destruct (resolve_question (db s) (PyStr.strip raw)) as [question_id questions'].
      rewrite Heq, Hpost. unfold stored_points in *. rewrite Hst in Hp. simpl in *.
      injection Hp as <-. eexists. split; [reflexivity|].
      rewrite recompute_points.
      pose proof (award_positive (count_rows (db s) question_id (other_of user_id))).
      lia.
  - rewrite get_state_read_only. exists p. split; [done|lia].
  - exists p. split; [done|lia].
  - exists p. split; [done|lia].
  - exists p. split; [done|lia].
Qed.

Lemma run_ops_points ops : forall s p,
  stored_points s = Some p ->
  exists p', stored_points (run_ops s ops) = Some p' /\ p <= p'.
Proof.
  induction ops as [|o ops IH]; intros s p Hp; simpl.
  - exists p. split; [done|lia].
  - destruct (run_op_points s o p Hp) as (p1 & Hp1 & Hle1).
    destruct (IH _ _ Hp1) as (p2 & Hp2 & Hle2).
    exists p2. split; [exact Hp2|lia].
Qed.

(** C8. [love_points] starts at 0 and no operation of the API lowers it:
    a single request leaves it unchanged or raises it, so it is
    non-decreasing along any sequence of requests and non-negative in every
    state reachable from first boot. *)
Theorem love_points_monotone :
  (forall sd yesterday_str, stored_points (boot sd yesterday_str) = Some 0) /\
  (forall s o p, stored_points s = Some p ->
     exists p', stored_points (run_op s o).1 = Some p' /\ p <= p') /\
  (forall s ops p, stored_points s = Some p ->
     exists p', stored_points (run_ops s ops) = Some p' /\ p <= p') /\
  (forall sd yesterday_str ops,
     exists p, stored_points (run_ops (boot sd yesterday_str) ops) = Some p /\
               0 <= p).
Proof.
  split; [reflexivity|].
  split; [exact run_op_points|].
  split; [intros s ops; exact (run_ops_points ops s)|].
  intros sd yesterday_str ops.
  exact (run_ops_points ops (boot sd yesterday_str) 0 eq_refl).
Qed.

Lemma love_points_monotone_witness :
  exists p', stored_points
               (run_ops Sample.running
                  [PostAnswer Sample.day2_later Sample.arpan_color;
                   GetState "2025-01-02"; GetHistory;
                   PostAnswer Sample.day2_update_fails Sample.arpan_color;
                   GetPending "nidhi"; ServeAudio "f1.webm"]) = Some p' /\
             7 <= p'.
Proof.
  apply (proj1 (proj2 (proj2 love_points_monotone)) Sample.running).
  reflexivity.
Defined.

(** ** GET /api/audio *)

Lemma startswith_app sub post : PyStr.startswith (sub +:+ post) sub = true.
Proof.
  induction sub as [|c sub IH]; simpl; [by destruct post|].
  destruct (decide (c = c)); [exact IH | done].
Qed.

Lemma contains_startswith sub s :
  PyStr.startswith s sub = true -> PyStr.contains sub s = true.
Proof. intros H. destruct s; cbn [PyStr.contains]; by rewrite H. Qed.

(** A name with the text [sub] anywhere inside contains it. *)
Lemma contains_app sub pre post : PyStr.contains sub (pre +:+ sub +:+ post) = true.
Proof.
  induction pre as [|c pre IH].
  - change (PyStr.contains sub (sub +:+ post) = true).
    apply contains_startswith, startswith_app.
  - change (PyStr.contains sub (String c (pre +:+ sub +:+ post)) = true).
    cbn [PyStr.contains]. rewrite IH. apply orb_true_r.
Qed.

(** A name with a [..] inside or a leading slash is answered 400, whatever
    the library call would do, and no file-system call is made. *)
Lemma serve_audio_rejects_traversal send filename :
  PyStr.contains ".." filename = true \/ PyStr.startswith filename "/" = true ->
  serve_audio_with send filename = (mkResponse 400 (ErrorJson "Invalid filename"), []).
Proof.
  unfold serve_audio_with. intros [-> | ->]; simpl; [done|].
  by rewrite orb_true_r.
Qed.

(** A name that passes the check and names no existing blob is answered
    by the generic handler. *)
Lemma serve_audio_missing s filename :
  PyStr.contains ".." filename = false ->
  PyStr.startswith filename "/" = false ->
  upload_path filename ∉ fs s ->
  serve_audio s filename =
    (mkResponse 500 (ErrorJson "Error serving audio file"),
     [IsFile (upload_path filename)]).
Proof.
  intros Hc Hs Hnot. unfold serve_audio, serve_audio_with, send_from_directory.
  rewrite Hc, Hs. simpl. by rewrite bool_decide_eq_false_2.
Qed.

(** C9 (the code departs from the claim). Names with a [..] or a leading
    slash are answered 400 before any file-system call; but a well-formed
    name of a blob that does not exist is answered 500, not 404: the
    library signals it with [NotFound], which is not a [FileNotFoundError]
    and falls to the generic handler. *)
Theorem serve_audio_missing_blob_is_500 :
  serve_audio Sample.running "../database.db"
    = (mkResponse 400 (ErrorJson "Invalid filename"), []) /\
  serve_audio Sample.running "/etc/passwd"
    = (mkResponse 400 (ErrorJson "Invalid filename"), []) /\
  serve_audio Sample.running "f1.webm"
    = (mkResponse 200 (AudioFile "audio_uploads/f1.webm"),
       [IsFile "audio_uploads/f1.webm"]) /\
  serve_audio Sample.running "missing.webm"
    = (mkResponse 500 (ErrorJson "Error serving audio file"),
       [IsFile "audio_uploads/missing.webm"]) /\
  status (serve_audio Sample.running "missing.webm").1 ≠ 404.
Proof. vm_compute. repeat split; discriminate. Qed.

(** ** Ordered dictionaries and the descending sort *)

Section ODictFacts.

Context {K V : Type} `{EqDecision K}.
Implicit Types (d : list (K * V)) (k : K) (v : V).

Lemma odict_get_set k k' v d :
  odict_get k' (odict_set k v d) =
  if decide (k = k') then Some v else odict_get k' d.
Proof.
  induction d as [|[k0 v0] d IH]; csimpl.
  - repeat case_decide; congruence.
  - destruct (decide (k0 = k)) as [->|Hne]; csimpl.
    + repeat case_decide; congruence.
    + rewrite IH. repeat case_decide; congruence.
Qed.

Lemma odict_set_keys_present k v d :
  is_Some (odict_get k d) -> (odict_set k v d).*1 = d.*1.
Proof.
  induction d as [|[k0 v0] d IH]; csimpl; intros Hs.
  - by destruct Hs.
  - destruct (decide (k0 = k)) as [->|Hne]; csimpl; [done|].
    f_equal. by apply IH.
Qed.

Lemma odict_set_keys_absent k v d :
  odict_get k d = None -> (odict_set k v d).*1 = d.*1 ++ [k].
Proof.
  induction d as [|[k0 v0] d IH]; csimpl; intros Hn; [done|].
  destruct (decide (k0 = k)) as [->|Hne]; csimpl; [done|].
  f_equal. by apply IH.
Qed.

Lemma odict_get_None k d : odict_get k d = None <-> k ∉ d.*1.
Proof.
  induction d as [|[k0 v0] d IH]; csimpl.
  - split; [intros _; apply not_elem_of_nil | done].
  - rewrite not_elem_of_cons. destruct (decide (k0 = k)) as [->|Hne].
    + split; [done | intros [? _]; done].
    + rewrite IH. split; [intros ?; split; [congruence|done] | by intros [_ ?]].
Qed.

Lemma odict_get_elem k v d : odict_get k d = Some v -> (k, v) ∈ d.
Proof.
  induction d as [|[k0 v0] d IH]; csimpl; [done|].
  destruct (decide (k0 = k)) as [->|Hne].
  - intros [= ->]. left.
  - intros H'. right. by apply IH.
Qed.

Lemma odict_elem_get k v d : NoDup d.*1 -> (k, v) ∈ d -> odict_get k d = Some v.
Proof.
  induction d as [|[k0 v0] d IH]; csimpl; intros Hnd Hin.
  - by apply elem_of_nil in Hin.
  - apply NoDup_cons in Hnd as [Hk0 Hnd].
    apply elem_of_cons in Hin as [[= -> ->]|Hin].
    + by rewrite decide_True.
    + destruct (decide (k0 = k)) as [->|Hne]; [|by apply IH].
      exfalso. apply Hk0. apply list_elem_of_fmap. by exists (k, v).
Qed.

Lemma odict_set_NoDup k v d : NoDup d.*1 -> NoDup (odict_set k v d).*1.
Proof.
  intros Hnd. destruct (odict_get k d) as [v0|] eqn:Hg.
  - by rewrite odict_set_keys_present.
  - rewrite odict_set_keys_absent by done.
    apply NoDup_app. split; [done|]. split; [|apply NoDup_singleton].
    intros k' Hk' ->%list_elem_of_singleton. by apply odict_get_None in Hg.
Qed.

Context {R : Type} (key : R -> K) (value : R -> V).

(** Every entry of a comprehension comes from a row, the keys are
    distinct, and every row's key is present. *)
Lemma odict_of_spec (rows : list R) :
  NoDup (odict_of key value rows).*1 /\
  (forall k v, (k, v) ∈ odict_of key value rows ->
     exists row, row ∈ rows /\ key row = k /\ value row = v) /\
  (forall row, row ∈ rows -> key row ∈ (odict_of key value rows).*1).
Proof.
  unfold odict_of.
  cut (forall d,
         NoDup d.*1 ->
         let d' := foldl (fun d row => odict_set (key row) (value row) d) d rows in
         NoDup d'.*1 /\
         (forall k v, (k, v) ∈ d' ->
            (k, v) ∈ d \/ exists row, row ∈ rows /\ key row = k /\ value row = v) /\
         (forall k, k ∈ d.*1 \/ (exists row, row ∈ rows /\ key row = k) -> k ∈ d'.*1)).
  { intros Hcut. destruct (Hcut [] (NoDup_nil_2)) as (Hnd & Hfrom & Hkeys).
    split; [exact Hnd|]. split.
    - intros k v Hin. destruct (Hfrom k v Hin) as [Hnil|?]; [|done].
      by apply elem_of_nil in Hnil.
    - intros row Hrow. apply Hkeys. right. by exists row. }
  induction rows as [|row rows IH]; intros d Hnd; csimpl.
  - split; [done|]. split; [by left|]. intros k [?|(row & Hrow & _)]; [done|].
    by apply elem_of_nil in Hrow.
  - destruct (IH (odict_set (key row) (value row) d) (odict_set_NoDup _ _ _ Hnd))
      as (Hnd' & Hfrom & Hkeys).
    split; [exact Hnd'|]. split.
    + intros k v Hin. destruct (Hfrom k v Hin) as [Hset|(row' & Hrow' & Hk)].
      * apply odict_elem_get in Hset; [|by apply odict_set_NoDup].
        rewrite odict_get_set in Hset. case_decide as Hk.
        -- injection Hset as <-. right. exists row. split; [left|done].
        -- left. by apply odict_get_elem.
      * right. exists row'. split; [by right|done].
    + intros k Hk. apply Hkeys.
      destruct Hk as [Hk|(row' & Hrow' & Hk)].
      * left. destruct (odict_get (key row) d) eqn:Hg.
        -- by rewrite odict_set_keys_present.
        -- rewrite odict_set_keys_absent by done. apply elem_of_app. by left.
      * apply elem_of_cons in Hrow' as [->|Hrow'].
        -- left. subst k. destruct (odict_get (key row) d) eqn:Hg.
           ++ rewrite odict_set_keys_present by done.
              destruct (decide (key row ∈ d.*1)) as [|Hn]; [done|].
              apply odict_get_None in Hn. congruence.
           ++ rewrite odict_set_keys_absent by done. apply elem_of_app.
              right. left.
        -- right. by exists row'.
Qed.

End ODictFacts.

Section SortDescFacts.

Context {A : Type} (key : A -> Z).

Lemma insert_desc_perm x l : insert_desc key x l ≡ₚ x :: l.
Proof.
  induction l as [|y l IH]; simpl; [done|].
  destruct (key x <? key y); [|done].
  rewrite IH. apply Permutation_swap.
Qed.

Lemma sort_desc_perm l : sort_desc key l ≡ₚ l.
Proof.
  induction l as [|x l IH]; simpl; [done|].
  rewrite insert_desc_perm. by rewrite IH.
Qed.

Lemma insert_desc_sorted x l :
  StronglySorted (desc key) l -> StronglySorted (desc key) (insert_desc key x l).
Proof.
  induction l as [|y l IH]; simpl; intros Hs.
  - repeat constructor.
  - apply StronglySorted_inv in Hs as [Hs Hall].
    destruct (Z.ltb_spec (key x) (key y)) as [Hlt|Hge].
    + constructor; [by apply IH|].
      rewrite insert_desc_perm. constructor; [unfold desc; lia | exact Hall].
    + constructor; [by constructor|].
      constructor; [exact Hge|].
      eapply Forall_impl; [exact Hall|]. unfold desc. intros z Hz. lia.
Qed.

Lemma sort_desc_sorted l : StronglySorted (desc key) (sort_desc key l).
Proof.
  induction l as [|x l IH]; simpl; [constructor|].
  by apply insert_desc_sorted.
Qed.

Lemma sort_desc_elem x l : x ∈ sort_desc key l <-> x ∈ l.
Proof. by rewrite sort_desc_perm. Qed.

End SortDescFacts.

Lemma max_default_spec l d :
  l ≠ [] -> max_default l d ∈ l /\ Forall (fun x => x <= max_default l d) l.
Proof.
  destruct l as [|x l]; [done|]. intros _. simpl.
  revert x. induction l as [|y l IH]; intros x; simpl.
  - split; [left | by constructor].
  - destruct (IH x) as [Hin Hall].
    apply Forall_cons in Hall as [Hx Hall].
    destruct (Z.max_spec y (foldr Z.max x l)) as [[Hlt ->]|[Hge ->]].
    + split.
      * apply elem_of_cons in Hin as [Heq|Hin]; [rewrite Heq; left|].
        right. by right.
      * constructor; [exact Hx|]. constructor; [lia|exact Hall].
    + split; [right; left|].
      constructor; [lia|]. constructor; [lia|].
      eapply Forall_impl; [exact Hall|]. simpl. intros; lia.
Qed.

(** ** GET /api/history *)

Lemma record_answer_get k d r :
  odict_get k (record_answer d r) = (fun q => absorb k q r) <$> odict_get k d.
Proof.
  unfold record_answer, absorb.
  destruct (decide (a_question_id r = k)) as [<-|Hne].
  - destruct (odict_get (a_question_id r) d) as [q|] eqn:Hq; [|by rewrite Hq].
    simpl. destruct (match h_answers q !! a_user_id r with
                     | None => true
                     | Some shown => timestamp shown <? a_timestamp r
                     end).
    + rewrite odict_get_set. by rewrite decide_True.
    + by rewrite Hq.
  - destruct (odict_get (a_question_id r) d) as [q|] eqn:Hq.
    + destruct (match h_answers q !! a_user_id r with
                | None => true
                | Some shown => timestamp shown <? a_timestamp r
                end).
      * rewrite odict_get_set. rewrite decide_False by done.
        by destruct (odict_get k d).
      * by destruct (odict_get k d).
    + by destruct (odict_get k d).
Qed.

Lemma record_answer_keys d r : (record_answer d r).*1 = d.*1.
Proof.
  unfold record_answer.
  destruct (odict_get (a_question_id r) d) as [q|] eqn:Hq; [|done].
  case_match; [|done]. apply odict_set_keys_present. by rewrite Hq.
Qed.

Lemma record_answers_get k rows : forall d,
  odict_get k (foldl record_answer d rows)
  = (fun q => foldl (absorb k) q rows) <$> odict_get k d.
Proof.
  induction rows as [|r rows IH]; intros d; simpl.
  - by destruct (odict_get k d).
  - rewrite IH, record_answer_get. by destruct (odict_get k d).
Qed.

Lemma record_answers_keys rows : forall d, (foldl record_answer d rows).*1 = d.*1.
Proof.
  induction rows as [|r rows IH]; intros d; simpl; [done|].
  by rewrite IH, record_answer_keys.
Qed.

Lemma absorb_fixed k q r :
  h_id (absorb k q r) = h_id q /\ h_text (absorb k q r) = h_text q.
Proof. unfold absorb. by repeat case_match. Qed.

Lemma absorbs_fixed k rows : forall q,
  h_id (foldl (absorb k) q rows) = h_id q /\
  h_text (foldl (absorb k) q rows) = h_text q.
Proof.
  induction rows as [|r rows IH]; intros q; simpl; [done|].
  destruct (IH (absorb k q r)) as [-> ->]. apply absorb_fixed.
Qed.

Lemma elem_of_snoc {A} (a r : A) (l : list A) : a ∈ l ++ [r] <-> a ∈ l \/ a = r.
Proof. rewrite elem_of_app, list_elem_of_singleton. done. Qed.

(** One more row keeps the entry showing the latest answer per user. *)
Lemma absorb_shows_latest k seen q r :
  shows_latest seen k (h_answers q) ->
  shows_latest (seen ++ [r]) k (h_answers (absorb k q r)).
Proof.
  intros Hq user. specialize (Hq user). unfold absorb.
  destruct (decide (a_question_id r = k)) as [Hk|Hk].
  - destruct (decide (a_user_id r = user)) as [Hu|Hu].
    + subst user. destruct (h_answers q !! a_user_id r) as [shown|] eqn:Hs.
      * destruct Hq as [(a & Ha & Hak & Hau & Hav) Hmax].
        destruct (Z.ltb_spec (timestamp shown) (a_timestamp r)) as [Hlt|Hge]; simpl.
        -- rewrite lookup_insert_eq. split.
           ++ exists r. split; [apply elem_of_app; right; left|done].
           ++ intros a' [Ha'| ->]%elem_of_snoc Hk' Hu';
                simpl; [|lia]. specialize (Hmax a' Ha' Hk' Hu'). lia.
        -- rewrite Hs. split.
           ++ exists a. split; [apply elem_of_app; by left|done].
           ++ intros a' [Ha'| ->]%elem_of_snoc Hk' Hu';
                [by apply Hmax|done].
      * simpl. rewrite lookup_insert_eq. split.
        -- exists r. split; [apply elem_of_app; right; left|done].
        -- intros a' [Ha'| ->]%elem_of_snoc Hk' Hu';
             simpl; [|lia]. by destruct (Hq a' Ha' Hk').
    + assert (Hkeep : h_answers
                (if match h_answers q !! a_user_id r with
                    | None => true
                    | Some shown => timestamp shown <? a_timestamp r
                    end
                 then mkHistory (h_id q) (h_text q)
                        (<[a_user_id r :=
                             mkView (url_for_serve_audio (a_audio_filename r))
                                    (a_timestamp r)]> (h_answers q))
                 else q) !! user = h_answers q !! user).
      { match goal with
        | |- context [if ?c then mkHistory _ _ _ else _] => destruct c
        end; simpl; [by rewrite lookup_insert_ne|done]. }
      rewrite Hkeep. destruct (h_answers q !! user) as [shown|].
      * destruct Hq as [(a & Ha & Hak & Hau & Hav) Hmax]. split.
        -- exists a. split; [apply elem_of_app; by left|done].
        -- intros a' [Ha'| ->]%elem_of_snoc Hk' Hu';
             [by apply Hmax|done].
      * intros a' [Ha'| ->]%elem_of_snoc Hk';
          [by apply Hq|done].
  - destruct (h_answers q !! user) as [shown|].
    + destruct Hq as [(a & Ha & Hak & Hau & Hav) Hmax]. split.
      * exists a. split; [apply elem_of_app; by left|done].
      * intros a' [Ha'| ->]%elem_of_snoc Hk' Hu';
          [by apply Hmax|done].
    + intros a' [Ha'| ->]%elem_of_snoc Hk';
        [by apply Hq|done].
Qed.

Lemma absorbs_shows_latest k rows : forall seen q,
  shows_latest seen k (h_answers q) ->
  shows_latest (seen ++ rows) k (h_answers (foldl (absorb k) q rows)).
Proof.
  induction rows as [|r rows IH]; intros seen q Hq; simpl.
  - by rewrite app_nil_r.
  - replace (seen ++ r :: rows) with ((seen ++ [r]) ++ rows)
      by (by rewrite <- app_assoc).
    apply IH. by apply absorb_shows_latest.
Qed.

Lemma shows_latest_nil k : shows_latest [] k ∅.
Proof.
  intros user. rewrite lookup_empty. intros a Ha. by apply elem_of_nil in Ha.
Qed.

Lemma shows_latest_perm k rows rows' answers :
  rows ≡ₚ rows' -> shows_latest rows k answers -> shows_latest rows' k answers.
Proof.
  intros Hp Hs user. specialize (Hs user).
  destruct (answers !! user) as [shown|].
  - destruct Hs as [(a & Ha & Hrest) Hmax]. split.
    + exists a. split; [by rewrite <- Hp|done].
    + intros a' Ha'. apply Hmax. by rewrite Hp.
  - intros a Ha. apply Hs. by rewrite Hp.
Qed.

Lemma latest_timestamp_spec (h : history_entry) :
  (h_answers h = ∅ -> latest_timestamp h = 0) /\
  (forall user shown, h_answers h !! user = Some shown ->
     timestamp shown <= latest_timestamp h) /\
  (h_answers h ≠ ∅ ->
     exists user shown, h_answers h !! user = Some shown /\
                        timestamp shown = latest_timestamp h).
Proof.
  unfold latest_timestamp.
  set (l := timestamp <$> (map_to_list (h_answers h)).*2).
  split; [|split].
  - intros He. subst l. rewrite He, map_to_list_empty. reflexivity.
  - intros user shown Hs.
    assert (Hin : timestamp shown ∈ l).
    { subst l. apply list_elem_of_fmap. exists shown. split; [done|].
      apply list_elem_of_fmap. exists (user, shown). split; [done|].
      by apply elem_of_map_to_list. }
    assert (Hne : l ≠ []) by (intros Hnil; rewrite Hnil in Hin; by apply elem_of_nil in Hin).
    destruct (max_default_spec l 0 Hne) as [_ Hall].
    rewrite Forall_forall in Hall. by apply Hall.
  - intros Hne.
    assert (Hl : l ≠ []).
    { subst l. intros Hnil. apply fmap_nil_inv in Hnil. apply fmap_nil_inv in Hnil.
      by apply map_to_list_empty_iff in Hnil. }
    destruct (max_default_spec l 0 Hl) as [Hin _].
    subst l. apply list_elem_of_fmap in Hin as (shown & Heq & Hin).
    apply list_elem_of_fmap in Hin as ([user shown'] & Heq' & Hin). simpl in Heq'.
    subst shown'. exists user, shown. split; [by apply elem_of_map_to_list|done].
Qed.

(** What the entries of [history_of] are, for any order of the fetched
    rows. *)
Lemma history_of_entries question_rows answer_rows :
  history_of question_rows answer_rows ≡ₚ
    (foldl record_answer
       (odict_of q_id (fun row => mkHistory (q_id row) (q_text row) ∅) question_rows)
       answer_rows).*2.
Proof. unfold history_of. apply sort_desc_perm. Qed.

Lemma history_of_entry question_rows answer_rows h :
  h ∈ history_of question_rows answer_rows ->
  (exists q, q ∈ question_rows /\ q_id q = h_id h /\ q_text q = h_text h) /\
  shows_latest answer_rows (h_id h) (h_answers h).
Proof.
  rewrite history_of_entries.
  set (d0 := odict_of q_id (fun row => mkHistory (q_id row) (q_text row) ∅)
                      question_rows).
  destruct (odict_of_spec q_id (fun row => mkHistory (q_id row) (q_text row) ∅)
              question_rows) as (Hnd & Hfrom & _).
  fold d0 in Hnd, Hfrom.
  intros Hin. apply list_elem_of_fmap in Hin as ([k h'] & Heq & Hin).
  simpl in Heq. subst h'.
  apply odict_elem_get in Hin; [|by rewrite record_answers_keys].
  rewrite record_answers_get in Hin.
  destruct (odict_get k d0) as [q0|] eqn:Hq0; [|discriminate].
  simpl in Hin. injection Hin as <-.
  apply odict_get_elem in Hq0.
  destruct (Hfrom k q0 Hq0) as (row & Hrow & Hk & Hv). subst q0 k.
  destruct (absorbs_fixed (q_id row) answer_rows (mkHistory (q_id row) (q_text row) ∅))
    as [Hid Htext].
  simpl in Hid, Htext. rewrite Hid. split.
  - exists row. by rewrite Htext.
  - pose proof (absorbs_shows_latest (q_id row) answer_rows []
                  (mkHistory (q_id row) (q_text row) ∅)
                  (shows_latest_nil (q_id row))) as Hs.
    exact Hs.
Qed.

Lemma history_of_ids question_rows answer_rows :
  NoDup (h_id <$> history_of question_rows answer_rows) /\
  (forall q, q ∈ question_rows ->
     q_id q ∈ h_id <$> history_of question_rows answer_rows).
Proof.
  set (d0 := odict_of q_id (fun row => mkHistory (q_id row) (q_text row) ∅)
                      question_rows).
  set (d := foldl record_answer d0 answer_rows).
  destruct (odict_of_spec q_id (fun row => mkHistory (q_id row) (q_text row) ∅)
              question_rows) as (Hnd & Hfrom & Hkeys).
  fold d0 in Hnd, Hfrom, Hkeys.
  assert (Hids : h_id <$> d.*2 = d.*1).
  { assert (Hall : Forall (fun kv => h_id kv.2 = kv.1) d).
    { apply Forall_forall. intros [k h] Hin. simpl.
      apply odict_elem_get in Hin; [|unfold d; by rewrite record_answers_keys].
      unfold d in Hin. rewrite record_answers_get in Hin.
      destruct (odict_get k d0) as [q0|] eqn:Hq0; [|discriminate].
      simpl in Hin. injection Hin as <-.
      apply odict_get_elem in Hq0.
      destruct (Hfrom k q0 Hq0) as (row & _ & Hk & Hv). subst q0 k.
      by destruct (absorbs_fixed (q_id row) answer_rows
                     (mkHistory (q_id row) (q_text row) ∅)) as [-> _]. }
    clear -Hall. induction Hall as [|[k h] d' Hkv _ IH]; csimpl; [done|].
    simpl in Hkv. by rewrite Hkv, IH. }
  assert (Hperm : h_id <$> history_of question_rows answer_rows ≡ₚ d.*1).
  { rewrite history_of_entries. fold d0. fold d. by rewrite Hids. }
  split.
  - rewrite Hperm. unfold d. by rewrite record_answers_keys.
  - intros q Hq. rewrite Hperm. unfold d. rewrite record_answers_keys.
    by apply Hkeys.
Qed.

(** Once the timestamps are positive, only entries without answers
    follow an entry without answers in a list that is descending by
    [latest_timestamp]. *)
Lemma unanswered_sorted_last rows (before after : list history_entry) h1 h2 :
  (forall a, a ∈ rows -> 0 < a_timestamp a) ->
  (forall h, h ∈ before ++ h1 :: after -> shows_latest rows (h_id h) (h_answers h)) ->
  StronglySorted (desc latest_timestamp) (before ++ h1 :: after) ->
  h_answers h1 = ∅ -> h2 ∈ after -> h_answers h2 = ∅.
Proof.
  intros Hpos Hshow Hsorted Hempty Hin.
  apply StronglySorted_app in Hsorted as (_ & _ & Hsorted).
  apply StronglySorted_cons in Hsorted as [Hall _].
  rewrite Forall_forall in Hall. specialize (Hall h2 Hin). unfold desc in Hall.
  destruct (latest_timestamp_spec h1) as (Hzero & _ & _).
  rewrite (Hzero Hempty) in Hall.
  destruct (decide (h_answers h2 = ∅)) as [|Hne]; [done|exfalso].
  destruct (latest_timestamp_spec h2) as (_ & _ & Hmax).
  destruct (Hmax Hne) as (user & shown & Hlook & Hts).
  assert (Hh2 : h2 ∈ before ++ h1 :: after)
    by (apply elem_of_app; right; by right).
  specialize (Hshow h2 Hh2 user). rewrite Hlook in Hshow.
  destruct Hshow as [(a & Ha & _ & _ & ->) _]. simpl in Hts.
  specialize (Hpos a Ha). lia.
Qed.

(** C6. Whatever Questions and Answers are stored, the history reply has
    one entry per question id; each entry shows for each user at most one
    answer (the [answers] map has one value per user), none when the user
    has no row for the question and otherwise one of the user's rows with
    the greatest timestamp; the entries are in descending order of
    [latest_timestamp], which is the greatest shown timestamp of the entry
    and 0 for an entry without answers, so that with positive timestamps
    the entries without answers come last. *)
Theorem get_history_latest_per_user s :
  exists history_list,
    get_history s = (s, mkResponse 200 (HistoryJson history_list)) /\
    NoDup (h_id <$> history_list) /\
    (forall q, q ∈ Questions (db s) -> q_id q ∈ h_id <$> history_list) /\
    (forall h, h ∈ history_list ->
       (exists q, q ∈ Questions (db s) /\ q_id q = h_id h /\ q_text q = h_text h) /\
       shows_latest (Answers (db s)) (h_id h) (h_answers h) /\
       (h_answers h = ∅ -> latest_timestamp h = 0) /\
       (forall user shown, h_answers h !! user = Some shown ->
          timestamp shown <= latest_timestamp h) /\
       (h_answers h ≠ ∅ ->
          exists user shown, h_answers h !! user = Some shown /\
                             timestamp shown = latest_timestamp h)) /\
    StronglySorted (desc latest_timestamp) history_list /\
    ((forall a, a ∈ Answers (db s) -> 0 < a_timestamp a) ->
     forall before h1 after h2,
       history_list = before ++ h1 :: after ->
       h_answers h1 = ∅ -> h2 ∈ after -> h_answers h2 = ∅).
Proof.
  eexists. split; [reflexivity|].
  destruct (history_of_ids (sort_desc q_id (Questions (db s)))
              (sort_desc a_timestamp (Answers (db s)))) as [Hnd Hall].
  split; [exact Hnd|]. split.
  { intros q Hq. apply Hall. by apply sort_desc_elem. }
  assert (Hshow : forall h,
            h ∈ history_of (sort_desc q_id (Questions (db s)))
                           (sort_desc a_timestamp (Answers (db s))) ->
            shows_latest (Answers (db s)) (h_id h) (h_answers h)).
  { intros h Hh. apply history_of_entry in Hh as [_ Hs].
    eapply shows_latest_perm; [apply sort_desc_perm|exact Hs]. }
  split; [|split; [apply sort_desc_sorted|]].
  - intros h Hh. split.
    + apply history_of_entry in Hh as [(q & Hq & Hid & Htext) _].
      exists q. split; [by apply sort_desc_elem in Hq|done].
    + split; [by apply Hshow|]. apply latest_timestamp_spec.
  - intros Hpos before h1 after h2 Heq Hempty Hin.
    apply (unanswered_sorted_last (Answers (db s)) before after h1 h2 Hpos);
      [| |done|done].
    + rewrite <- Heq. exact Hshow.
    + rewrite <- Heq. apply sort_desc_sorted.
Qed.

Lemma get_history_latest_per_user_witness :
  exists history_list,
    get_history Sample.running
      = (Sample.running, mkResponse 200 (HistoryJson history_list)) /\
    NoDup (h_id <$> history_list) /\
    (forall q, q ∈ Questions (db Sample.running) -> q_id q ∈ h_id <$> history_list) /\
    (forall h, h ∈ history_list ->
       (exists q, q ∈ Questions (db Sample.running) /\ q_id q = h_id h /\
                  q_text q = h_text h) /\
       shows_latest (Answers (db Sample.running)) (h_id h) (h_answers h) /\
       (h_answers h = ∅ -> latest_timestamp h = 0) /\
       (forall user shown, h_answers h !! user = Some shown ->
          timestamp shown <= latest_timestamp h) /\
       (h_answers h ≠ ∅ ->
          exists user shown, h_answers h !! user = Some shown /\
                             timestamp shown = latest_timestamp h)) /\
    StronglySorted (desc latest_timestamp) history_list /\
    ((forall a, a ∈ Answers (db Sample.running) -> 0 < a_timestamp a) ->
     forall before h1 after h2,
       history_list = before ++ h1 :: after ->
       h_answers h1 = ∅ -> h2 ∈ after -> h_answers h2 = ∅).
Proof. apply (get_history_latest_per_user Sample.running). Defined.


(** ** GET /api/pending *)

Lemma answered_by_elem d user id text :
  (id, text) ∈ answered_by d user <->
  (exists q, q ∈ Questions d /\ q_id q = id /\ q_text q = text) /\
  answered (Answers d) id user.
Proof.
  unfold answered_by, answered.
  rewrite elem_of_remove_dups, list_elem_of_fmap. split.
  - intros (q & [= -> ->] & Hq). apply list_elem_of_filter in Hq as [Hex Hq].
    apply Exists_exists in Hex as (a & Ha & Hk & Hu).
    split; [by exists q|]. by exists a.
  - intros [(q & Hq & <- & <-) (a & Ha & Hk & Hu)].
    exists q. split; [done|]. apply list_elem_of_filter. split; [|done].
    apply Exists_exists. by exists a.
Qed.

Lemma answered_among_elem d user ids id :
  id ∈ answered_among d user ids <-> id ∈ ids /\ answered (Answers d) id user.
Proof.
  unfold answered_among, answered.
  rewrite elem_of_remove_dups, list_elem_of_fmap. split.
  - intros (a & -> & Ha). apply list_elem_of_filter in Ha as [[Hu Hin] Ha].
    split; [done|]. by exists a.
  - intros [Hin (a & Ha & <- & Hu)]. exists a. split; [done|].
    apply list_elem_of_filter. by split.
Qed.

Lemma max_timestamp_spec d id user :
  answered (Answers d) id user ->
  exists m, max_timestamp d id user = Some m /\
    (exists a, a ∈ Answers d /\ a_question_id a = id /\ a_user_id a = user /\
               a_timestamp a = m) /\
    (forall a, a ∈ Answers d -> a_question_id a = id -> a_user_id a = user ->
               a_timestamp a <= m).
Proof.
  intros (a0 & Ha0 & Hk0 & Hu0). unfold max_timestamp.
  set (rows := filter (fun a => a_question_id a = id ∧ a_user_id a = user) (Answers d)).
  assert (Hin0 : a_timestamp a0 ∈ a_timestamp <$> rows).
  { apply list_elem_of_fmap. exists a0. split; [done|].
    apply list_elem_of_filter. by split. }
  assert (Hne : a_timestamp <$> rows ≠ [])
    by (intros Hnil; rewrite Hnil in Hin0; by apply elem_of_nil in Hin0).
  destruct (max_default_spec _ 0 Hne) as [Hin Hall].
  destruct (a_timestamp <$> rows) as [|x rest] eqn:Hrows; [done|].
  simpl in Hin, Hall. eexists. split; [reflexivity|]. split.
  - rewrite <- Hrows in Hin. apply list_elem_of_fmap in Hin as (a & Heq & Ha).
    apply list_elem_of_filter in Ha as [[Hk Hu] Ha]. by exists a.
  - intros a Ha Hk Hu. rewrite Forall_forall in Hall. apply Hall.
    rewrite <- Hrows. apply list_elem_of_fmap. exists a. split; [done|].
    apply list_elem_of_filter. by split.
Qed.

Lemma or_zero_some n : or_zero (Some n) = n.
Proof. unfold or_zero, truthyZ. destruct (Z.eqb_spec n 0); simpl; congruence. Qed.

Lemma filter_keys_NoDup {K V} (P : K * V -> Prop) `{!forall x, Decision (P x)}
    (d : list (K * V)) :
  NoDup d.*1 -> NoDup (filter P d).*1.
Proof.
  intros Hnd. eapply sublist_NoDup; [exact Hnd|].
  apply fmap_sublist, sublist_filter.
Qed.

(** The reply for a valid identity, in both branches of the handler. *)
Lemma get_pending_reply s user_id :
  user_id ∈ USERS ->
  let other_user := other_of user_id in
  let questions := odict_of fst snd (answered_by (db s) other_user) in
  let current : gset Z :=
    list_to_set (answered_among (db s) user_id questions.*1) in
  (get_pending_questions s user_id).1 =
    mkResponse 200 (PendingJson (sort_desc p_timestamp
      ((fun item => mkPending item.1 item.2 other_user
                      (or_zero (max_timestamp (db s) item.1 other_user)))
       <$> filter (fun item => item.1 ∉ current) questions))).
Proof.
  intros Hu. simpl. unfold get_pending_questions.
  rewrite bool_decide_eq_true_2 by done. simpl.
  by destruct (odict_of fst snd (answered_by (db s) (other_of user_id))).
Qed.

(** C7. For nidhi the counterpart is arpan and for arpan it is nidhi. For
    either of them the pending reply lists exactly the questions that some
    row of Answers shows answered by the counterpart and no row shows
    answered by the requester (however many rows the counterpart has for a
    question, its id appears once), each with the counterpart's greatest
    answer timestamp for it, in descending order of that timestamp. For any
    other identity the reply is a 400 and no statement is executed. *)
Theorem get_pending_questions_spec s user_id :
  (user_id ≠ "nidhi" -> user_id ≠ "arpan" ->
     get_pending_questions s user_id
     = (mkResponse 400 (ErrorJson "Invalid user ID"), [])) /\
  (forall counterpart,
     user_id = "nidhi" /\ counterpart = "arpan" \/
     user_id = "arpan" /\ counterpart = "nidhi" ->
     exists pending,
       (get_pending_questions s user_id).1 = mkResponse 200 (PendingJson pending) /\
       (forall id, id ∈ p_id <$> pending <->
          (exists q, q ∈ Questions (db s) /\ q_id q = id) /\
          (exists a, a ∈ Answers (db s) /\ a_question_id a = id /\
                     a_user_id a = counterpart) /\
          ¬ (exists a, a ∈ Answers (db s) /\ a_question_id a = id /\
                       a_user_id a = user_id)) /\
       NoDup (p_id <$> pending) /\
       (forall p, p ∈ pending ->
          p_asked_by p = counterpart /\
          (exists q, q ∈ Questions (db s) /\ q_id q = p_id p /\ q_text q = p_text p) /\
          (exists a, a ∈ Answers (db s) /\ a_question_id a = p_id p /\
                     a_user_id a = counterpart /\
                     a_timestamp a = p_timestamp p) /\
          (forall a, a ∈ Answers (db s) -> a_question_id a = p_id p ->
                     a_user_id a = counterpart ->
                     a_timestamp a <= p_timestamp p)) /\
       StronglySorted (desc p_timestamp) pending).
Proof.
  split.
  { intros Hn Ha. unfold get_pending_questions.
    rewrite bool_decide_eq_false_2; [done|]. unfold USERS.
    intros [->|Hin]%elem_of_cons; [done|].
    by apply list_elem_of_singleton in Hin. }
  intros counterpart Hcase.
  assert (Hu : user_id ∈ USERS).
  { unfold USERS. destruct Hcase as [[-> _]|[-> _]]; [left|right; left]. }
  assert (Hc : counterpart = other_of user_id).
  { by destruct Hcase as [[-> ->]|[-> ->]]. }
  subst counterpart. clear Hcase.
  pose proof (get_pending_reply s user_id Hu) as Hreply.
  simpl in Hreply.
  set (other_user := other_of user_id) in *.
  set (questions := odict_of fst snd (answered_by (db s) other_user)) in *.
  set (current := list_to_set (answered_among (db s) user_id questions.*1) : gset Z) in *.
  set (to_do := filter (fun item : Z * string => item.1 ∉ current) questions) in *.
  set (entry := fun item : Z * string =>
                  mkPending item.1 item.2 other_user
                    (or_zero (max_timestamp (db s) item.1 other_user))) in *.
  destruct (odict_of_spec (@fst Z string) snd (answered_by (db s) other_user))
    as (Hnd & Hfrom & Hkeys).
  fold questions in Hnd, Hfrom, Hkeys.
  (* the items of [to_do] *)
  assert (Htodo : forall id text, (id, text) ∈ to_do <->
            (id, text) ∈ questions /\ ¬ answered (Answers (db s)) id user_id).
  { intros id text. unfold to_do. rewrite list_elem_of_filter. simpl.
    unfold current. rewrite elem_of_list_to_set, answered_among_elem.
    split.
    - intros [Hnot Hin]. split; [done|]. intros Hans. apply Hnot. split; [|done].
      apply list_elem_of_fmap. by exists (id, text).
    - intros [Hin Hnot]. split; [|done]. by intros [_ Hans]. }
  assert (Hitem : forall id text, (id, text) ∈ questions ->
            (exists q, q ∈ Questions (db s) /\ q_id q = id /\ q_text q = text) /\
            answered (Answers (db s)) id other_user).
  { intros id text Hin. destruct (Hfrom id text Hin) as ([id' text'] & Hrow & Hk & Hv).
    simpl in Hk, Hv. subst id' text'. by apply answered_by_elem in Hrow. }
  assert (Hids : p_id <$> sort_desc p_timestamp (entry <$> to_do) ≡ₚ to_do.*1).
  { rewrite sort_desc_perm.
    assert (Heq : forall l : list (Z * string), p_id <$> (entry <$> l) = l.*1).
    { intros l. induction l as [|[id text] l IH]; csimpl; [done|by rewrite IH]. }
    by rewrite Heq. }
  exists (sort_desc p_timestamp (entry <$> to_do)).
  split; [exact Hreply|]. split; [|split; [|split]].
  - intros id. rewrite Hids. split.
    + intros Hin. apply list_elem_of_fmap in Hin as ([id' text] & -> & Hin).
      simpl. apply Htodo in Hin as [Hin Hnot].
      destruct (Hitem _ _ Hin) as [(q & Hq & Hid & _) Hother].
      split; [by exists q|]. by split.
    + intros [(q & Hq & Hid) [Hother Hnot]].
      assert (Hrow : (id, q_text q) ∈ answered_by (db s) other_user).
      { apply answered_by_elem. split; [by exists q|done]. }
      apply Hkeys in Hrow. simpl in Hrow.
      apply list_elem_of_fmap in Hrow as ([id' text] & Heq & Hin).
      simpl in Heq. subst id'.
      apply list_elem_of_fmap. exists (id, text). split; [done|].
      apply Htodo. by split.
  - rewrite Hids. unfold to_do. by apply filter_keys_NoDup.
  - intros p Hp. apply sort_desc_elem in Hp.
    apply list_elem_of_fmap in Hp as ([id text] & -> & Hin). simpl.
    apply Htodo in Hin as [Hin Hnot].
    destruct (Hitem _ _ Hin) as [Hq Hother].
    destruct (max_timestamp_spec (db s) id other_user Hother) as (m & -> & Hm & Hmax).
    rewrite or_zero_some. by repeat split.
  - apply sort_desc_sorted.
Qed.

Lemma get_pending_questions_spec_witness :
  exists pending,
    (get_pending_questions Sample.running "nidhi").1
      = mkResponse 200 (PendingJson pending) /\
    (forall id, id ∈ p_id <$> pending <->
       (exists q, q ∈ Questions (db Sample.running) /\ q_id q = id) /\
       (exists a, a ∈ Answers (db Sample.running) /\ a_question_id a = id /\
                  a_user_id a = "arpan") /\
       ¬ (exists a, a ∈ Answers (db Sample.running) /\ a_question_id a = id /\
                    a_user_id a = "nidhi")) /\
    NoDup (p_id <$> pending) /\
    (forall p, p ∈ pending ->
       p_asked_by p = "arpan" /\
       (exists q, q ∈ Questions (db Sample.running) /\ q_id q = p_id p /\
                  q_text q = p_text p) /\
       (exists a, a ∈ Answers (db Sample.running) /\ a_question_id a = p_id p /\
                  a_user_id a = "arpan" /\
                  a_timestamp a = p_timestamp p) /\
       (forall a, a ∈ Answers (db Sample.running) -> a_question_id a = p_id p ->
                  a_user_id a = "arpan" ->
                  a_timestamp a <= p_timestamp p)) /\
    StronglySorted (desc p_timestamp) pending.
Proof.
  apply (proj2 (get_pending_questions_spec Sample.running "nidhi") "arpan").
  left. split; reflexivity.
Defined.

(** ** Worked examples *)

Example strip_trims : PyStr.strip "  Favorite color? " = "Favorite color?".
Proof. reflexivity. Qed.

Example allowed_file_cases :
  allowed_file "take1.WebM" = true /\ allowed_file "virus.exe" = false /\
  allowed_file "noextension" = false /\ allowed_file "a.b.mp3" = true.
Proof. vm_compute. done. Qed.

(** The example of the specification: on a fresh system the first answer
    to a question earns 1 point and starts the streak; the counterpart's
    answer to the same question on the same day earns 5 and leaves the
    streak at 1. *)
Example two_submissions_same_day :
  let first := post_answer Sample.day2 Sample.fresh Sample.nidhi_color in
  let second := post_answer Sample.day2_later first.1 Sample.arpan_color in
  first.2 = mkResponse 201 (AnswerJson
              (mkAnswerReply "Answer saved successfully" 1
                 (mkSnapshot 1 1 (Some "2025-01-02") 0 1))) /\
  second.2 = mkResponse 201 (AnswerJson
               (mkAnswerReply "Answer saved successfully" 5
                  (mkSnapshot 6 1 (Some "2025-01-02") 1 1))).
Proof. vm_compute. done. Qed.

(** A disallowed extension is rejected before anything is written. *)
Example exe_upload_rejected :
  post_answer Sample.day2 Sample.fresh
    (mkRequest (Some "nidhi") (Some "Q") (Some "manual") (Some (mkUpload "a.exe")))
  = (Sample.fresh, mkResponse 400 (ErrorJson "Invalid audio file type")).
Proof. reflexivity. Qed.

Example pending_for_nidhi :
  get_pending_questions Sample.running "nidhi"
  = (mkResponse 200 (PendingJson [mkPending 2 "B" "arpan" 50]),
     [SelectAnsweredBy "arpan"; SelectAnsweredAmong "nidhi" [1; 2];
      SelectMaxTimestamp 2 "arpan"]).
Proof. vm_compute. done. Qed.

Example history_order :
  h_id <$> history_of (sort_desc q_id (Questions Sample.journal))
                      (sort_desc a_timestamp (Answers Sample.journal))
  = [2; 1; 3].
Proof. vm_compute. done. Qed.

(** * Further properties of the handlers *)

(** ** When a submission succeeds *)

Lemma allowed_file_ext name :
  allowed_file name = true ->
  exists x, PyStr.rsplit1_tail "." name = Some x /\
            PyStr.lower x ∈ ALLOWED_EXTENSIONS.
Proof.
  unfold allowed_file. intros [_ H]%andb_true_iff.
  destruct (PyStr.rsplit1_tail "." name) as [x|]; [|discriminate].
  exists x. split; [done|]. by apply bool_decide_eq_true in H.
Qed.

Lemma transaction_succeeds e user_id question_text source audio_file t0 x st :
  quiet_store e ->
  PyStr.rsplit1_tail "." (filename audio_file) = Some x ->
  CoupleState (working t0) = Some st ->
  exists t p, transaction e user_id question_text source audio_file t0 = (t, inr p).
Proof.
  intros Hq Hx Hst. unfold_txn. rewrite ?Hq. simpl.
  destruct (List.find _ _); simpl; rewrite ?Hq, ?Hx; simpl; rewrite ?Hq; simpl;
    rewrite ?Hst; simpl; rewrite ?Hq; simpl; eauto.
Qed.

(** With a store that does not fail, a submission is answered 201 exactly
    when it passes validation and the aggregate row exists. *)
Theorem post_answer_created_iff e s r :
  quiet_store e ->
  (status (post_answer e s r).2 = 201 <->
   (exists accepted, validate r = inr accepted) /\ is_Some (CoupleState (db s))).
Proof.
  intros Hq. split.
  - intros H201. split.
    + unfold post_answer in H201.
      destruct (validate r) as [error|accepted]; [discriminate|]. by exists accepted.
    + destruct (post_answer_created e s r H201)
        as (? & ? & ? & ? & ? & st & _ & _ & _ & _ & _ & Hst & _).
      by exists st.
  - intros [[[[[user_id question_text] source] audio_file] Hv] [st Hst]].
    unfold post_answer. rewrite Hv.
    destruct (validate_accepts _ _ _ _ _ Hv) as (_ & _ & _ & _ & _ & _ & Hal).
    destruct (allowed_file_ext _ Hal) as (x & Hx & _).
    destruct (transaction_succeeds e user_id question_text source audio_file
                (mkTxn (db s) (db s) (fs s) None) x st Hq Hx Hst) as (t & p & ->).
    by rewrite (Hq AtReadBack).
Qed.

Lemma post_answer_created_iff_witness :
  status (post_answer Sample.day2 Sample.fresh Sample.nidhi_color).2 = 201 <->
  (exists accepted, validate Sample.nidhi_color = inr accepted) /\
  is_Some (CoupleState (db Sample.fresh)).
Proof.
  apply (post_answer_created_iff Sample.day2 Sample.fresh Sample.nidhi_color).
  intros p. reflexivity.
Defined.

(** ** Validation *)

Lemma post_answer_400_inv e s r :
  status (post_answer e s r).2 = 400 ->
  (post_answer e s r).1 = s /\
  exists error, (post_answer e s r).2 = mkResponse 400 (ErrorJson error).
Proof.
  unfold post_answer.
  destruct (validate r) as [error|[[[user_id question_text] source] audio_file]];
    simpl; [eauto|].
  destruct (transaction _ _ _ _ _ _) as [t [x|p]]; simpl.
  - destruct (cleanup e t). simpl. discriminate.
  - destruct (fault e AtReadBack); simpl; discriminate.
Qed.

(** A 400 reply to a submission leaves the database and the upload
    folder exactly as they were, and carries an error text. *)
Theorem post_answer_400_changes_nothing e s r :
  status (post_answer e s r).2 = 400 ->
  db (post_answer e s r).1 = db s /\
  fs (post_answer e s r).1 = fs s /\
  exists error, (post_answer e s r).2 = mkResponse 400 (ErrorJson error).
Proof.
  intros H. destruct (post_answer_400_inv e s r H) as [Hs Herr].
  rewrite Hs. auto.
Qed.

Lemma post_answer_400_changes_nothing_witness :
  db (post_answer Sample.day2 Sample.running
        (mkRequest (Some "charlie") (Some "Q") (Some "manual") None)).1
    = db Sample.running /\
  fs (post_answer Sample.day2 Sample.running
        (mkRequest (Some "charlie") (Some "Q") (Some "manual") None)).1
    = fs Sample.running /\
  exists error,
    (post_answer Sample.day2 Sample.running
       (mkRequest (Some "charlie") (Some "Q") (Some "manual") None)).2
      = mkResponse 400 (ErrorJson error).
Proof.
  apply (post_answer_400_changes_nothing Sample.day2 Sample.running
           (mkRequest (Some "charlie") (Some "Q") (Some "manual") None)).
  reflexivity.
Defined.

(** The checks run in a fixed order, and the first one that fails names
    the error: the user, then the question text, then the source, then the
    presence of the file, then its extension. *)
Theorem validate_first_failure r :
  let bad_user := forall u, form_userId r = Some u -> u ∉ USERS in
  let bad_text := form_questionText r = None \/ form_questionText r = Some "" in
  let bad_source :=
    forall src, form_source r = Some src -> src ∉ ["manual"; "random"] in
  let bad_type :=
    forall f, files_audioFile r = Some f -> allowed_file (filename f) = false in
  (bad_user -> validate r = inl "Missing or invalid userId") /\
  (¬ bad_user -> bad_text -> validate r = inl "Missing questionText") /\
  (¬ bad_user -> ¬ bad_text -> bad_source ->
     validate r = inl "Missing or invalid source") /\
  (¬ bad_user -> ¬ bad_text -> ¬ bad_source -> files_audioFile r = None ->
     validate r = inl "Missing audioFile") /\
  (¬ bad_user -> ¬ bad_text -> ¬ bad_source -> is_Some (files_audioFile r) ->
     bad_type -> validate r = inl "Invalid audio file type") /\
  (¬ bad_user -> ¬ bad_text -> ¬ bad_source -> is_Some (files_audioFile r) ->
     ¬ bad_type -> exists accepted, validate r = inr accepted).
Proof.
  unfold validate. simpl.
  destruct (form_userId r) as [u|].
  2:{ repeat split; try done; intros Hn; exfalso; apply Hn; by intros. }
  case_bool_decide as Hu; simpl.
  2:{ repeat split; try done; intros Hn; exfalso; apply Hn; by intros ? [= <-]. }
  split; [intros Hb; exfalso; by apply (Hb u)|].
  destruct (form_questionText r) as [[|c raw]|]; simpl.
  1,3: repeat split; try done; intros _ Hn; exfalso; apply Hn; auto.
  split; [by intros _ [|]|].
  destruct (form_source r) as [src|].
  2:{ repeat split; try done; intros _ _ Hn; exfalso; apply Hn; by intros. }
  case_bool_decide as Hs; simpl.
  2:{ repeat split; try done; intros _ _ Hn; exfalso; apply Hn; by intros ? [= <-]. }
  split; [intros _ _ Hb; exfalso; by apply (Hb src)|].
  destruct (files_audioFile r) as [f|]; simpl.
  2:{ repeat split; try done; by intros _ _ _ [? ?]. }
  split; [done|].
  destruct (allowed_file (filename f)) eqn:Hal; simpl.
  - rewrite orb_false_r.
    assert (Ht : PyStr.truthy (filename f) = true).
    { unfold allowed_file in Hal. destruct (filename f); [discriminate|done]. }
    rewrite Ht. simpl. split.
    + intros _ _ _ _ Hb. specialize (Hb f eq_refl). congruence.
    + intros. eauto.
  - rewrite orb_true_r. split; [done|].
    intros _ _ _ _ Hn. exfalso. apply Hn. by intros ? [= <-].
Qed.

(** ** File names and question texts *)

Lemma rsplit1_tail_no_sep ext :
  PyStr.contains "." ext = false -> PyStr.rsplit1_tail "." ext = None.
Proof.
  induction ext as [|c ext IH]; [done|].
  cbn [PyStr.contains PyStr.rsplit1_tail PyStr.startswith].
  intros [Hs Hc]%orb_false_iff. rewrite (IH Hc).
  destruct (decide ("."%char = c)) as [<-|Hne].
  - by destruct ext.
  - destruct (decide (c = "."%char)); [congruence|done].
Qed.

Lemma rsplit1_tail_app stem ext :
  PyStr.contains "." ext = false ->
  PyStr.rsplit1_tail "." (stem +:+ "." +:+ ext) = Some ext.
Proof.
  intros Hext. induction stem as [|c stem IH].
  - change (PyStr.rsplit1_tail "." (String "." ext) = Some ext).
    cbn [PyStr.rsplit1_tail]. rewrite (rsplit1_tail_no_sep ext Hext).
    by destruct (decide ("."%char = "."%char)).
  - change (PyStr.rsplit1_tail "." (String c (stem +:+ "." +:+ ext)) = Some ext).
    cbn [PyStr.rsplit1_tail]. by rewrite IH.
Qed.

(** Only the text after the last dot of an upload's name decides whether
    it is accepted, and its letter case does not matter. *)
Theorem allowed_file_last_extension stem ext :
  PyStr.contains "." ext = false ->
  allowed_file (stem +:+ "." +:+ ext)
  = bool_decide (PyStr.lower ext ∈ ALLOWED_EXTENSIONS).
Proof.
  intros Hext. unfold allowed_file.
  rewrite (contains_app "." stem ext), (rsplit1_tail_app stem ext Hext).
  reflexivity.
Qed.

Lemma allowed_file_last_extension_witness :
  allowed_file ("holiday.mp3.backup" +:+ "." +:+ "OGG")
  = bool_decide (PyStr.lower "OGG" ∈ ALLOWED_EXTENSIONS).
Proof.
  apply (allowed_file_last_extension "holiday.mp3.backup" "OGG"). reflexivity.
Defined.

Lemma lstrip_head s c t : PyStr.lstrip s = String c t -> PyStr.is_space c = false.
Proof.
  induction s as [|a s IH]; simpl; [discriminate|].
  destruct (PyStr.is_space a) eqn:Ha; [exact IH|].
  by intros [= <- <-].
Qed.

Lemma rstrip_head c t :
  PyStr.is_space c = false -> exists u, PyStr.rstrip (String c t) = String c u.
Proof.
  intros Hc. cbn [PyStr.rstrip]. destruct (PyStr.rstrip t); rewrite ?Hc; eauto.
Qed.

Lemma rstrip_idempotent s : PyStr.rstrip (PyStr.rstrip s) = PyStr.rstrip s.
Proof.
  induction s as [|c s IH]; [done|].
  cbn [PyStr.rstrip]. destruct (PyStr.rstrip s) as [|d r] eqn:Hr.
  - destruct (PyStr.is_space c) eqn:Hc; [done|].
    cbn [PyStr.rstrip]. by rewrite Hc.
  - cbn [PyStr.rstrip]. cbn [PyStr.rstrip] in IH. by rewrite IH.
Qed.

(** Stripping a stripped text changes nothing. *)
Lemma strip_idempotent s : PyStr.strip (PyStr.strip s) = PyStr.strip s.
Proof.
  unfold PyStr.strip. destruct (PyStr.lstrip s) as [|c t] eqn:Hl; [done|].
  pose proof (lstrip_head s c t Hl) as Hc.
  destruct (rstrip_head c t Hc) as [u Hu]. rewrite Hu.
  cbn [PyStr.lstrip]. rewrite Hc. rewrite <- Hu. apply rstrip_idempotent.
Qed.

(** ** What a successful submission writes *)

Lemma next_rowid_fresh ids i : i ∈ ids -> i < next_rowid ids.
Proof.
  unfold next_rowid. destruct ids as [|x rest]; [by intros ?%elem_of_nil|].
  revert x i. induction rest as [|y rest IH]; intros x i Hin; simpl.
  - apply list_elem_of_singleton in Hin as ->. lia.
  - apply elem_of_cons in Hin as [->|Hin].
    + assert (Hx : x ∈ x :: rest) by left. specialize (IH x x Hx). lia.
    + apply elem_of_cons in Hin as [->|Hin]; [lia|].
      assert (Hi : i ∈ x :: rest) by (by right). specialize (IH x i Hi). lia.
Qed.

Lemma find_text_none text qs :
  List.find (fun q => bool_decide (q_text q = text)) qs = None ->
  text ∉ q_text <$> qs.
Proof.
  induction qs as [|q qs IH]; csimpl; [intros _; apply not_elem_of_nil|].
  case_bool_decide as Hq; [discriminate|].
  intros Hn. apply not_elem_of_cons. split; [congruence|by apply IH].
Qed.

Lemma find_text_some text qs row :
  List.find (fun q => bool_decide (q_text q = text)) qs = Some row ->
  row ∈ qs /\ q_text row = text.
Proof.
  induction qs as [|q qs IH]; simpl; [discriminate|].
  case_bool_decide as Hq.
  - intros [= <-]. split; [left|done].
  - intros Hf. destruct (IH Hf). split; [by right|done].
Qed.

(** The two ways a text is resolved: an existing row is reused, or one
    row with a new, larger id is appended. *)
Lemma resolve_question_cases d text :
  let '(id, questions') := resolve_question d text in
  (questions' = Questions d /\
   exists row, row ∈ Questions d /\ q_id row = id /\ q_text row = text) \/
  (questions' = Questions d ++ [mkQuestion id text] /\
   (text ∉ q_text <$> Questions d) /\
   forall i, i ∈ q_id <$> Questions d -> i < id).
Proof.
  unfold resolve_question.
  destruct (List.find _ _) as [row|] eqn:Hf.
  - left. split; [done|]. apply find_text_some in Hf as [? ?]. by exists row.
  - right. split; [done|]. split; [by apply find_text_none|].
    apply next_rowid_fresh.
Qed.

(** The committed database after any one request: unchanged, or the
    database of a successful submission. *)
Lemma run_op_db s o :
  db (run_op s o).1 = db s \/
  exists user_id text name now st st',
    user_id ∈ USERS /\ PyStr.strip text = text /\
    CoupleState (db s) = Some st /\
    db (run_op s o).1 =
      mkDb (resolve_question (db s) text).2
           (Answers (db s) ++
            [mkAnswer (resolve_question (db s) text).1 user_id name now])
           (Some st').
Proof.
  destruct o as [e r|today_str| |fname|user_id]; simpl; auto.
  2:{ left. by rewrite get_state_read_only. }
  destruct (post_answer_db_cases e s r) as [Hdb|[H201 Heq]]; [by left|right].
  destruct (post_answer_created (reading_back e) s r H201)
    as (user_id & raw & source & audio_file & x & st & Hu & _ & _ & _ & _ & Hst & Hpost).
  assert (Huser : user_id ∈ USERS).
  { unfold post_answer in H201.
    destruct (validate r) as [?|[[[u q] src] af]] eqn:Hv; [discriminate|].
    apply validate_accepts in Hv as (Hu' & Hin & _). congruence. }
  destruct (resolve_question (db s) (PyStr.strip raw)) as [qid qs'] eqn:Hres.
  rewrite Heq, Hpost. simpl.
  eexists user_id, (PyStr.strip raw), _, _, st, _.
  split; [done|]. split; [apply strip_idempotent|]. split; [done|].
  by rewrite Hres.
Qed.

(** No request removes or rewrites a stored question or answer: both
    tables only grow at the end, by at most one row each per request. *)
Theorem run_op_append_only s o :
  exists new_questions new_answers,
    Questions (db (run_op s o).1) = Questions (db s) ++ new_questions /\
    Answers (db (run_op s o).1) = Answers (db s) ++ new_answers /\
    (List.length new_questions <= 1)%nat /\ (List.length new_answers <= 1)%nat.
Proof.
  destruct (run_op_db s o)
    as [->|(user_id & text & name & now & st & st' & _ & _ & _ & ->)].
  - exists [], []. rewrite !app_nil_r. repeat split; simpl; lia.
  - simpl. pose proof (resolve_question_cases (db s) text) as Hres.
    destruct (resolve_question (db s) text) as [id qs']. simpl.
    destruct Hres as [[-> _]|[-> _]].
    + eexists [], [_]. rewrite app_nil_r. repeat split; simpl; lia.
    + eexists [_], [_]. repeat split; simpl; lia.
Qed.

Lemma run_ops_invariant (P : database -> Prop) :
  (forall s o, P (db s) -> P (db (run_op s o).1)) ->
  forall ops s, P (db s) -> P (db (run_ops s ops)).
Proof.
  intros Hstep ops. induction ops as [|o ops IH]; intros s Hs; simpl; [done|].
  apply IH. by apply Hstep.
Qed.

Lemma run_op_ids_distinct s o :
  ids_distinct (db s) -> ids_distinct (db (run_op s o).1).
Proof.
  unfold ids_distinct. intros Hnd.
  destruct (run_op_db s o)
    as [->|(user_id & text & name & now & st & st' & _ & _ & _ & ->)]; [done|].
  simpl. pose proof (resolve_question_cases (db s) text) as Hres.
  destruct (resolve_question (db s) text) as [id qs']. simpl.
  destruct Hres as [[-> _]|(-> & _ & Hfresh)]; [done|].
  rewrite fmap_app. apply NoDup_app. split; [done|].
  split; [|apply NoDup_singleton].
  intros i Hi ->%list_elem_of_singleton. specialize (Hfresh _ Hi). simpl in Hfresh. lia.
Qed.

Lemma run_op_texts_distinct s o :
  texts_distinct (db s) -> texts_distinct (db (run_op s o).1).
Proof.
  unfold texts_distinct. intros Hnd.
  destruct (run_op_db s o)
    as [->|(user_id & text & name & now & st & st' & _ & _ & _ & ->)]; [done|].
  simpl. pose proof (resolve_question_cases (db s) text) as Hres.
  destruct (resolve_question (db s) text) as [id qs']. simpl.
  destruct Hres as [[-> _]|(-> & Hnew & _)]; [done|].
  rewrite fmap_app. apply NoDup_app. split; [done|].
  split; [|apply NoDup_singleton].
  by intros t Ht ->%list_elem_of_singleton.
Qed.

Lemma run_op_texts_trimmed s o :
  texts_trimmed (db s) -> texts_trimmed (db (run_op s o).1).
Proof.
  unfold texts_trimmed. intros Hall.
  destruct (run_op_db s o)
    as [->|(user_id & text & name & now & st & st' & _ & Htrim & _ & ->)]; [done|].
  simpl. pose proof (resolve_question_cases (db s) text) as Hres.
  destruct (resolve_question (db s) text) as [id qs']. simpl.
  destruct Hres as [[-> _]|(-> & _ & _)]; [done|].
  intros q [Hq| ->]%elem_of_snoc; [by apply Hall|done].
Qed.

Lemma run_op_answers_refer s o :
  answers_refer (db s) -> answers_refer (db (run_op s o).1).
Proof.
  unfold answers_refer. intros Hall.
  destruct (run_op_db s o)
    as [->|(user_id & text & name & now & st & st' & Hu & _ & _ & ->)]; [done|].
  simpl. pose proof (resolve_question_cases (db s) text) as Hres.
  destruct (resolve_question (db s) text) as [id qs']. simpl.
  assert (Hkeep : forall q, q ∈ Questions (db s) -> q ∈ qs').
  { destruct Hres as [[-> _]|(-> & _ & _)]; [done|].
    intros q Hq. apply elem_of_app. by left. }
  assert (Hid : exists q, q ∈ qs' /\ q_id q = id).
  { destruct Hres as [[-> (row & Hrow & Hid & _)]|(-> & _ & _)].
    - by exists row.
    - exists (mkQuestion id text). split; [|done]. apply elem_of_snoc. by right. }
  intros a [Ha| ->]%elem_of_snoc.
  - destruct (Hall a Ha) as [Hua (q & Hq & Hqa)]. split; [done|].
    exists q. split; [by apply Hkeep|done].
  - simpl. by split.
Qed.

(** Whatever one request adds to Questions has an id larger than every
    id stored before. *)
Lemma run_op_new_id_larger s o q q0 :
  q ∈ Questions (db (run_op s o).1) -> q ∉ Questions (db s) ->
  q0 ∈ Questions (db s) -> q_id q0 < q_id q.
Proof.
  intros Hin Hnew Hold.
  destruct (run_op_db s o)
    as [Hdb|(user_id & text & name & now & st & st' & _ & _ & _ & Hdb)];
    rewrite Hdb in Hin; [done|].
  simpl in Hin. pose proof (resolve_question_cases (db s) text) as Hres.
  destruct (resolve_question (db s) text) as [id qs']. simpl in Hin.
  destruct Hres as [[-> _]|(-> & _ & Hfresh)]; [done|].
  apply elem_of_snoc in Hin as [Hin| ->]; [done|]. simpl.
  apply Hfresh. apply list_elem_of_fmap. by exists q0.
Qed.

(** Starting from first boot, or from any store that has them, every
    sequence of requests keeps question ids distinct and question texts
    distinct: a text is stored once, however often it is submitted, and a
    row added by a request gets an id larger than every id stored before
    it. *)
Theorem questions_stay_distinct :
  (forall s ops, ids_distinct (db s) -> texts_distinct (db s) ->
     ids_distinct (db (run_ops s ops)) /\ texts_distinct (db (run_ops s ops))) /\
  (forall sd yesterday_str ops,
     ids_distinct (db (run_ops (boot sd yesterday_str) ops)) /\
     texts_distinct (db (run_ops (boot sd yesterday_str) ops))) /\
  (forall s o q q0,
     q ∈ Questions (db (run_op s o).1) -> q ∉ Questions (db s) ->
     q0 ∈ Questions (db s) -> q_id q0 < q_id q).
Proof.
  assert (Hgen : forall s ops, ids_distinct (db s) -> texts_distinct (db s) ->
     ids_distinct (db (run_ops s ops)) /\ texts_distinct (db (run_ops s ops))).
  { intros s ops Hi Ht. split.
    - by apply (run_ops_invariant ids_distinct run_op_ids_distinct).
    - by apply (run_ops_invariant texts_distinct run_op_texts_distinct). }
  split; [exact Hgen|]. split; [|exact run_op_new_id_larger].
  intros sd yesterday_str ops. apply Hgen; apply NoDup_nil_2.
Qed.

(** Every answer stored after any sequence of requests is by one of the
    two users and refers to a stored question, and every stored question
    text is free of leading and trailing whitespace. *)
Theorem answers_stay_linked :
  (forall s ops, answers_refer (db s) -> texts_trimmed (db s) ->
     answers_refer (db (run_ops s ops)) /\ texts_trimmed (db (run_ops s ops))) /\
  (forall sd yesterday_str ops,
     answers_refer (db (run_ops (boot sd yesterday_str) ops)) /\
     texts_trimmed (db (run_ops (boot sd yesterday_str) ops))).
Proof.
  assert (Hgen : forall s ops, answers_refer (db s) -> texts_trimmed (db s) ->
     answers_refer (db (run_ops s ops)) /\ texts_trimmed (db (run_ops s ops))).
  { intros s ops Ha Ht. split.
    - by apply (run_ops_invariant answers_refer run_op_answers_refer).
    - by apply (run_ops_invariant texts_trimmed run_op_texts_trimmed). }
  split; [exact Hgen|].
  intros sd yesterday_str ops. apply Hgen.
  - intros a Ha. by apply elem_of_nil in Ha.
  - intros q Hq. by apply elem_of_nil in Hq.
Qed.

(** ** The aggregate row over a run *)




Lemma recompute_streak_nonneg today yesterday source p st :
  0 <= streak_count st ->
  0 <= streak_count (recompute_state today yesterday source p st).
Proof.
  intros Hs. unfold recompute_state.
  repeat case_match; simplify_eq; simpl; lia.
Qed.

Lemma run_op_row_kept s o st :
  CoupleState (db s) = Some st -> 0 <= streak_count st ->
  exists st', CoupleState (db (run_op s o).1) = Some st' /\ 0 <= streak_count st'.
Proof.
  intros Hst Hs. destruct o as [e r|today_str| |fname|user_id]; simpl; eauto.
  2:{ rewrite get_state_read_only. eauto. }
  destruct (post_answer_db_cases e s r) as [->|[H201 Heq]]; [eauto|].
  destruct (post_answer_created (reading_back e) s r H201)
    as (user_id & raw & source & audio_file & x & st0 & _ & _ & _ & _ & _ & Hst0 & Hpost).
  destruct (resolve_question (db s) (PyStr.strip raw)) as [qid qs'].
  rewrite Heq, Hpost. simpl. eexists. split; [reflexivity|].
  apply recompute_streak_nonneg. congruence.
Qed.

(** After first boot the aggregate row is never lost and its streak is
    never negative, whatever requests arrive and however they fail. *)
Theorem aggregate_row_persists sd yesterday_str ops :
  exists st, CoupleState (db (run_ops (boot sd yesterday_str) ops)) = Some st /\
             0 <= streak_count st.
Proof.
  assert (Hgen : forall ops s st,
            CoupleState (db s) = Some st -> 0 <= streak_count st ->
            exists st', CoupleState (db (run_ops s ops)) = Some st' /\
                        0 <= streak_count st').
  { clear ops. intros ops. induction ops as [|o ops IH]; intros s st Hst Hs; simpl.
    - eauto.
    - destruct (run_op_row_kept s o st Hst Hs) as (st1 & Hst1 & Hs1). eauto. }
  eapply Hgen; [reflexivity|]. simpl. lia.
Qed.

(** ** Daily flags and the refreshed snapshot *)

Lemma recompute_daily today yesterday source p st :
  let st' := recompute_state today yesterday source p st in
  let same_day := bool_decide (daily_progress_date st = Some today) in
  daily_progress_date st' = Some today /\
  (source = "random" ->
     truthyZ (daily_random_answered st') = true /\
     daily_manual_answered st' =
       (if same_day then daily_manual_answered st else 0)) /\
  (source = "manual" ->
     truthyZ (daily_manual_answered st') = true /\
     daily_random_answered st' =
       (if same_day then daily_random_answered st else 0)).
Proof.
  unfold recompute_state. simpl.
  destruct (_ && negb (bool_decide (last_streak_update_date st = Some today)));
    destruct (bool_decide (daily_progress_date st = Some today)) eqn:Hd;
    destruct (bool_decide (source = "random")) eqn:Hr;
    destruct (bool_decide (source = "manual")) eqn:Hm;
    destruct (truthyZ (daily_random_answered st)) eqn:Htr;
    destruct (truthyZ (daily_manual_answered st)) eqn:Htm; simpl.
  all: rewrite ?Htr, ?Htm; simpl; rewrite ?Htr, ?Htm; simpl.
  all: try apply bool_decide_eq_true in Hd.
  all: try apply bool_decide_eq_false in Hr.
  all: try apply bool_decide_eq_false in Hm.
  all: split; [done|]; split; intros ->; done.
Qed.

(** A successful submission leaves the daily flags dated today, with the
    flag of the submitted source set; the other flag keeps its value when
    the flags were already dated today and is cleared when they were not. *)
Theorem post_answer_daily_flags e s r :
  status (post_answer e s r).2 = 201 ->
  exists source st st',
    form_source r = Some source /\
    CoupleState (db s) = Some st /\
    CoupleState (db (post_answer e s r).1) = Some st' /\
    let same_day := bool_decide (daily_progress_date st = Some (clock_today e)) in
    daily_progress_date st' = Some (clock_today e) /\
    (source = "random" ->
       truthyZ (daily_random_answered st') = true /\
       daily_manual_answered st' =
         (if same_day then daily_manual_answered st else 0)) /\
    (source = "manual" ->
       truthyZ (daily_manual_answered st') = true /\
       daily_random_answered st' =
         (if same_day then daily_random_answered st else 0)).
Proof.
  intros H.
  destruct (post_answer_created e s r H)
    as (user_id & raw & source & audio_file & x & st & _ & _ & Hs & _ & _ & Hst & Hpost).
  destruct (resolve_question (db s) (PyStr.strip raw)) as [qid qs'].
  rewrite Hpost. simpl. eexists source, st, _.
  split; [done|]. split; [done|]. split; [reflexivity|].
  apply recompute_daily.
Qed.

Lemma post_answer_daily_flags_witness :
  exists source st st',
    form_source Sample.arpan_color = Some source /\
    CoupleState (db Sample.running) = Some st /\
    CoupleState (db (post_answer Sample.day2_later Sample.running
                                 Sample.arpan_color).1) = Some st' /\
    let same_day :=
      bool_decide (daily_progress_date st = Some (clock_today Sample.day2_later)) in
    daily_progress_date st' = Some (clock_today Sample.day2_later) /\
    (source = "random" ->
       truthyZ (daily_random_answered st') = true /\
       daily_manual_answered st' =
         (if same_day then daily_manual_answered st else 0)) /\
    (source = "manual" ->
       truthyZ (daily_manual_answered st') = true /\
       daily_random_answered st' =
         (if same_day then daily_random_answered st else 0)).
Proof.
  apply (post_answer_daily_flags Sample.day2_later Sample.running Sample.arpan_color).
  vm_compute. reflexivity.
Defined.

(** The snapshot inside a 201 reply is the one GET /api/state would give
    next, read on the same day: the caller needs no second request. *)
Theorem post_answer_reply_is_state e s r :
  status (post_answer e s r).2 = 201 ->
  exists reply,
    payload (post_answer e s r).2 = AnswerJson reply /\
    (get_state (clock_today_check e) (post_answer e s r).1).2
    = mkResponse 200 (StateJson (refreshed reply)).
Proof.
  intros H.
  destruct (post_answer_created e s r H)
    as (user_id & raw & source & audio_file & x & st & _ & _ & _ & _ & _ & Hst & Hpost).
  destruct (resolve_question (db s) (PyStr.strip raw)) as [qid qs'].
  rewrite Hpost. simpl. eexists. split; [reflexivity|]. reflexivity.
Qed.

Lemma post_answer_reply_is_state_witness :
  exists reply,
    payload (post_answer Sample.day2 Sample.fresh Sample.nidhi_color).2
      = AnswerJson reply /\
    (get_state (clock_today_check Sample.day2)
               (post_answer Sample.day2 Sample.fresh Sample.nidhi_color).1).2
    = mkResponse 200 (StateJson (refreshed reply)).
Proof.
  apply (post_answer_reply_is_state Sample.day2 Sample.fresh Sample.nidhi_color).
  vm_compute. reflexivity.
Defined.

(** ** A store without its aggregate row, and the first answer *)

Lemma transaction_without_row e user_id question_text source audio_file t0 x :
  quiet_store e ->
  PyStr.rsplit1_tail "." (filename audio_file) = Some x ->
  CoupleState (working t0) = None ->
  exists t,
    transaction e user_id question_text source audio_file t0
    = (t, inl (PlainException "CoupleState not found during update")) /\
    committed t = committed t0 /\
    filepath_local t = Some (upload_path (fresh_uuid e +:+ "." +:+ PyStr.lower x)) /\
    files t = {[upload_path (fresh_uuid e +:+ "." +:+ PyStr.lower x)]} ∪ files t0.
Proof.
  intros Hq Hx Hst. unfold_txn. rewrite ?Hq. simpl.
  destruct (List.find _ _); simpl; rewrite ?Hq, ?Hx; simpl; rewrite ?Hq; simpl;
    rewrite ?Hst; simpl; eauto.
Qed.

(** When the aggregate row is missing, a valid submission on a working
    store is answered 500 with that cause; the database stays as it was and,
    the removal succeeding, no blob is left behind. *)
Theorem post_answer_without_aggregate_row e s r accepted :
  quiet_store e -> remove_fails e = None ->
  validate r = inr accepted ->
  CoupleState (db s) = None ->
  (post_answer e s r).2
    = mkResponse 500
        (ErrorJson "Failed to process answer: CoupleState not found during update") /\
  db (post_answer e s r).1 = db s /\
  (forall path, path ∈ fs (post_answer e s r).1 -> path ∈ fs s).
Proof.
  intros Hq Hrm Hv Hst. destruct accepted as [[[user_id question_text] source] audio_file].
  destruct (validate_accepts _ _ _ _ _ Hv) as (_ & _ & _ & _ & _ & _ & Hal).
  destruct (allowed_file_ext _ Hal) as (x & Hx & _).
  destruct (transaction_without_row e user_id question_text source audio_file
              (mkTxn (db s) (db s) (fs s) None) x Hq Hx Hst)
    as (t & Ht & Hc & Hfp & Hfiles).
  unfold post_answer. rewrite Hv, Ht. unfold cleanup. rewrite Hfp, Hrm.
  simpl in Hc, Hfiles.
  case_bool_decide as Hin; simpl.
  - split; [reflexivity|]. split; [exact Hc|].
    intros path. rewrite Hfiles, elem_of_difference, elem_of_union, elem_of_singleton.
    tauto.
  - exfalso. apply Hin. rewrite Hfiles, elem_of_union, elem_of_singleton. auto.
Qed.

Lemma post_answer_without_aggregate_row_witness :
  (post_answer Sample.day2 (mkSystem (mkDb [] [] None) ∅ []) Sample.nidhi_color).2
    = mkResponse 500
        (ErrorJson "Failed to process answer: CoupleState not found during update") /\
  db (post_answer Sample.day2 (mkSystem (mkDb [] [] None) ∅ [])
                  Sample.nidhi_color).1 = mkDb [] [] None /\
  (forall path,
     path ∈ fs (post_answer Sample.day2 (mkSystem (mkDb [] [] None) ∅ [])
                            Sample.nidhi_color).1 ->
     path ∈ (∅ : gset string)).
Proof.
  apply (post_answer_without_aggregate_row Sample.day2
           (mkSystem (mkDb [] [] None) ∅ []) Sample.nidhi_color
           ("nidhi", "Favorite color?", "manual", mkUpload "take1.WebM")).
  - intros p. reflexivity.
  - reflexivity.
  - vm_compute. reflexivity.
  - reflexivity.
Defined.

Lemma post_answer_quiet_201 e s r accepted st :
  quiet_store e -> validate r = inr accepted -> CoupleState (db s) = Some st ->
  status (post_answer e s r).2 = 201.
Proof.
  intros Hq Hv Hst. destruct accepted as [[[user_id question_text] source] audio_file].
  destruct (validate_accepts _ _ _ _ _ Hv) as (_ & _ & _ & _ & _ & _ & Hal).
  destruct (allowed_file_ext _ Hal) as (x & Hx & _).
  destruct (transaction_succeeds e user_id question_text source audio_file
              (mkTxn (db s) (db s) (fs s) None) x st Hq Hx Hst) as (t & p & Ht).
  unfold post_answer. by rewrite Hv, Ht, (Hq AtReadBack).
Qed.

(** The first valid submission after first boot, on a working store and
    on a day other than the stored one, earns 1 point and starts the streak
    at 1, whether or not the stored date is the day before. *)
Theorem first_answer_after_boot e sd yesterday_str r accepted :
  quiet_store e -> validate r = inr accepted ->
  yesterday_str ≠ clock_today e ->
  exists reply,
    (post_answer e (boot sd yesterday_str) r).2 = mkResponse 201 (AnswerJson reply) /\
    pointAwarded reply = 1 /\
    lovePoints (refreshed reply) = 1 /\
    streak (refreshed reply) = 1 /\
    lastStreakUpdateDate (refreshed reply) = Some (clock_today e).
Proof.
  intros Hq Hv Hday.
  pose proof (post_answer_quiet_201 e (boot sd yesterday_str) r accepted _ Hq Hv eq_refl)
    as H201.
  destruct (post_answer_created e _ r H201)
    as (user_id & raw & source & audio_file & x & st & _ & _ & _ & _ & _ & Hst & Hpost).
  simpl in Hst. injection Hst as <-.
  destruct (resolve_question _ (PyStr.strip raw)) as [qid qs'].
  rewrite Hpost. eexists. split; [reflexivity|].
  assert (Hcount : count_rows (db (boot sd yesterday_str)) qid (other_of user_id) = 0)
    by reflexivity.
  rewrite Hcount. change (award 0) with 1.
  pose proof (recompute_streak (clock_today e) (clock_yesterday e) source 1
                (default_couple_state sd yesterday_str) ltac:(lia))
    as (Hy & Hgap & _).
  simpl in Hy, Hgap. simpl.
  rewrite recompute_points. simpl. split; [done|]. split; [done|].
  assert (Hne : Some yesterday_str ≠ Some (clock_today e)) by congruence.
  destruct (decide (Some yesterday_str = Some (clock_yesterday e))) as [Heq|Hneq].
  - destruct (Hy Hne Heq) as [-> ->]. done.
  - destruct (Hgap Hne Hneq) as [-> ->]. done.
Qed.

Lemma first_answer_after_boot_witness :
  exists reply,
    (post_answer Sample.day2 (boot Sample.defaults "2024-12-25") Sample.nidhi_color).2
      = mkResponse 201 (AnswerJson reply) /\
    pointAwarded reply = 1 /\
    lovePoints (refreshed reply) = 1 /\
    streak (refreshed reply) = 1 /\
    lastStreakUpdateDate (refreshed reply) = Some (clock_today Sample.day2).
Proof.
  apply (first_answer_after_boot Sample.day2 Sample.defaults "2024-12-25"
           Sample.nidhi_color
           ("nidhi", "Favorite color?", "manual", mkUpload "take1.WebM")).
  - intros p. reflexivity.
  - vm_compute. reflexivity.
  - discriminate.
Defined.

(** ** Serving audio and counterparts *)

(** The handler of GET /api/audio, whatever the library call does: a
    name with a [..] inside or a leading slash is answered 400 without the
    library being called, and 400 is answered for no other name; for every
    other name the library is called once, the file-system calls are its
    calls, and the reply is 200 with the path it returns, 404 when it raises
    [FileNotFoundError], and 500 when it raises anything else, a
    [NotFound] included. *)
Theorem serve_audio_outcomes send name :
  let unsafe :=
    PyStr.contains ".." name = true \/ PyStr.startswith name "/" = true in
  (unsafe ->
     serve_audio_with send name
     = (mkResponse 400 (ErrorJson "Invalid filename"), [])) /\
  (status (serve_audio_with send name).1 = 400 -> unsafe) /\
  (¬ unsafe ->
     (serve_audio_with send name).2 = (send name).2 /\
     (forall path, (send name).1 = inr path ->
        (serve_audio_with send name).1 = mkResponse 200 (AudioFile path)) /\
     (forall msg, (send name).1 = inl (FileNotFoundError msg) ->
        (serve_audio_with send name).1
        = mkResponse 404 (ErrorJson "Audio file not found")) /\
     (forall x, (send name).1 = inl x ->
        (forall msg, x ≠ FileNotFoundError msg) ->
        (serve_audio_with send name).1
        = mkResponse 500 (ErrorJson "Error serving audio file"))).
Proof.
  unfold serve_audio_with. simpl.
  destruct (PyStr.contains ".." name) eqn:Hc; simpl.
  { split; [done|]. split; [by left|]. intros Hn. exfalso. apply Hn. by left. }
  destruct (PyStr.startswith name "/") eqn:Hs; simpl.
  { split; [done|]. split; [by right|]. intros Hn. exfalso. apply Hn. by right. }
  split; [by intros [|]|].
  destruct (send name) as [[x|path] calls] eqn:Hsend; simpl.
  - split; [destruct x; simpl; discriminate|].
    intros _. split; [by destruct x|]. split; [discriminate|].
    split.
    + by intros msg [= ->].
    + intros x' [= <-] Hne. destruct x; try done. by exfalso; apply (Hne msg).
  - split; [discriminate|]. intros _. split; [done|].
    split; [by intros ? [= ->]|]. split; discriminate.
Qed.

Lemma serve_audio_outcomes_witness :
  (serve_audio_with (send_from_directory (fs Sample.running)) "nothere.webm").2
    = (send_from_directory (fs Sample.running) "nothere.webm").2 /\
  (forall path,
     (send_from_directory (fs Sample.running) "nothere.webm").1 = inr path ->
     (serve_audio_with (send_from_directory (fs Sample.running)) "nothere.webm").1
     = mkResponse 200 (AudioFile path)) /\
  (forall msg,
     (send_from_directory (fs Sample.running) "nothere.webm").1
       = inl (FileNotFoundError msg) ->
     (serve_audio_with (send_from_directory (fs Sample.running)) "nothere.webm").1
     = mkResponse 404 (ErrorJson "Audio file not found")) /\
  (forall x,
     (send_from_directory (fs Sample.running) "nothere.webm").1 = inl x ->
     (forall msg, x ≠ FileNotFoundError msg) ->
     (serve_audio_with (send_from_directory (fs Sample.running)) "nothere.webm").1
     = mkResponse 500 (ErrorJson "Error serving audio file")).
Proof.
  apply (proj2 (proj2 (serve_audio_outcomes
                         (send_from_directory (fs Sample.running))
                         "nothere.webm"))).
  intros [H|H]; vm_compute in H; discriminate.
Defined.

(** The counterpart of either user is the other user, and taking it
    twice returns the user. *)
Theorem other_of_involutive user_id :
  user_id ∈ USERS ->
  other_of user_id ∈ USERS /\ other_of user_id ≠ user_id /\
  other_of (other_of user_id) = user_id.
Proof.
  unfold USERS. intros Hu. split; [apply other_of_users|].
  split; [apply other_of_ne|].
  apply elem_of_cons in Hu as [->|Hu]; [reflexivity|].
  apply list_elem_of_singleton in Hu as ->. reflexivity.
Qed.

Lemma other_of_involutive_witness :
  other_of "arpan" ∈ USERS /\ other_of "arpan" ≠ "arpan" /\
  other_of (other_of "arpan") = "arpan".
Proof. apply (other_of_involutive "arpan"). unfold USERS. right. left. Defined.

(** ** Retrying after a failure *)






(** ** A submission seen through the readers *)

Lemma post_answer_created_user e s r user_id :
  status (post_answer e s r).2 = 201 -> form_userId r = Some user_id ->
  user_id ∈ USERS.
Proof.
  unfold post_answer. intros H Hu.
  destruct (validate r) as [?|[[[u q] src] af]] eqn:Hv; [discriminate|].
  apply validate_accepts in Hv as (Hu' & Hin & _). congruence.
Qed.

Lemma question_id_of_elem d text id :
  question_id_of d text = Some id -> exists q, q ∈ Questions d /\ q_id q = id.
Proof.
  unfold question_id_of. destruct (List.find _ _) as [row|] eqn:Hf; [|discriminate].
  intros [= <-]. apply find_text_some in Hf as [Hrow _]. by exists row.
Qed.

(** The ids listed by the pending reply for a valid identity. *)
Lemma pending_ids s user_id :
  user_id ∈ USERS ->
  exists pending,
    (get_pending_questions s user_id).1 = mkResponse 200 (PendingJson pending) /\
    forall id, id ∈ p_id <$> pending <->
      (exists q, q ∈ Questions (db s) /\ q_id q = id) /\
      answered (Answers (db s)) id (other_of user_id) /\
      ¬ answered (Answers (db s)) id user_id.
Proof.
  intros Hu. pose proof (get_pending_reply s user_id Hu) as Hreply.
  simpl in Hreply.
  set (other_user := other_of user_id) in *.
  set (questions := odict_of fst snd (answered_by (db s) other_user)) in *.
  set (current := list_to_set (answered_among (db s) user_id questions.*1) : gset Z) in *.
  set (to_do := filter (fun item : Z * string => item.1 ∉ current) questions) in *.
  set (entry := fun item : Z * string =>
                  mkPending item.1 item.2 other_user
                    (or_zero (max_timestamp (db s) item.1 other_user))) in *.
  destruct (odict_of_spec (@fst Z string) snd (answered_by (db s) other_user))
    as (Hnd & Hfrom & Hkeys).
  fold questions in Hnd, Hfrom, Hkeys.
  exists (sort_desc p_timestamp (entry <$> to_do)). split; [exact Hreply|].
  assert (Hids : forall id, id ∈ p_id <$> sort_desc p_timestamp (entry <$> to_do)
                            <-> id ∈ to_do.*1).
  { intros id. rewrite sort_desc_perm.
    assert (Heq : forall l : list (Z * string), p_id <$> (entry <$> l) = l.*1).
    { intros l. induction l as [|[i t] l IH]; csimpl; [done|by rewrite IH]. }
    by rewrite Heq. }
  intros id. rewrite Hids. unfold to_do. split.
  - intros Hin. apply list_elem_of_fmap in Hin as ([id' text] & -> & Hin).
    apply list_elem_of_filter in Hin as [Hnot Hin]. simpl in *.
    destruct (Hfrom id' text Hin) as ([i t] & Hrow & Hk & Hv). simpl in Hk, Hv.
    subst i t. apply answered_by_elem in Hrow as [(q & Hq & Hid & _) Hother].
    split; [by exists q|]. split; [done|].
    intros Hans. apply Hnot. unfold current.
    apply elem_of_list_to_set, answered_among_elem. split; [|done].
    apply list_elem_of_fmap. by exists (id', text).
  - intros [(q & Hq & Hid) [Hother Hnot]].
    assert (Hrow : (id, q_text q) ∈ answered_by (db s) other_user).
    { apply answered_by_elem. split; [by exists q|done]. }
    apply Hkeys in Hrow. simpl in Hrow.
    apply list_elem_of_fmap in Hrow as ([id' text] & Heq & Hin).
    simpl in Heq. subst id'.
    apply list_elem_of_fmap. exists (id, text). split; [done|].
    apply list_elem_of_filter. split; [|done]. simpl. unfold current.
    rewrite elem_of_list_to_set, answered_among_elem. by intros [_ ?].
Qed.

(** After a successful submission the answered question is no longer
    pending for the submitter, and it is pending for the counterpart exactly
    when the counterpart has never answered it. *)
Theorem pending_after_answer e s r :
  status (post_answer e s r).2 = 201 ->
  exists user_id raw_text question_id mine theirs,
    form_userId r = Some user_id /\
    form_questionText r = Some raw_text /\
    question_id_of (db (post_answer e s r).1) (PyStr.strip raw_text)
      = Some question_id /\
    (get_pending_questions (post_answer e s r).1 user_id).1
      = mkResponse 200 (PendingJson mine) /\
    (get_pending_questions (post_answer e s r).1 (other_of user_id)).1
      = mkResponse 200 (PendingJson theirs) /\
    (question_id ∉ p_id <$> mine) /\
    (question_id ∈ p_id <$> theirs <->
     ¬ answered (Answers (db s)) question_id (other_of user_id)).
Proof.
  intros H.
  destruct (post_answer_created e s r H)
    as (user_id & raw & source & audio_file & x & st & Hu & Hq & _ & _ & _ & Hst & Hpost).
  pose proof (post_answer_created_user e s r user_id H Hu) as Huser.
  pose proof (resolve_question_found (db s) (PyStr.strip raw)) as Hfound.
  destruct (resolve_question (db s) (PyStr.strip raw)) as [qid qs'].
  simpl in Hpost, Hfound. rewrite Hpost. simpl.
  set (s' := mkSystem _ _ _).
  destruct (pending_ids s' user_id Huser) as (mine & Hmine & Hmine_ids).
  destruct (pending_ids s' (other_of user_id) (other_of_users user_id))
    as (theirs & Htheirs & Htheirs_ids).
  exists user_id, raw, qid, mine, theirs.
  split; [done|]. split; [done|]. split; [exact Hfound|].
  split; [done|]. split; [done|].
  assert (Hnew : answered (Answers (db s')) qid user_id).
  { eexists. split; [apply elem_of_snoc; by right|done]. }
  assert (Hback : other_of (other_of user_id) = user_id).
  { unfold USERS in Huser. apply elem_of_cons in Huser as [->|Huser]; [done|].
    by apply list_elem_of_singleton in Huser as ->. }
  split.
  - rewrite Hmine_ids. by intros (_ & _ & Hnot).
  - rewrite Htheirs_ids, Hback. split.
    + intros (_ & _ & Hnot) (a & Ha & Hk & Hau). apply Hnot.
      exists a. split; [apply elem_of_snoc; by left|done].
    + intros Hnot. split; [by apply (question_id_of_elem _ (PyStr.strip raw))|].
      split; [done|].
      intros (a & [Ha| ->]%elem_of_snoc & Hk & Hau).
      * apply Hnot. by exists a.
      * simpl in Hau. by apply (other_of_ne user_id).
Qed.

Lemma pending_after_answer_witness :
  exists user_id raw_text question_id mine theirs,
    form_userId Sample.nidhi_color = Some user_id /\
    form_questionText Sample.nidhi_color = Some raw_text /\
    question_id_of (db (post_answer Sample.day2 Sample.fresh Sample.nidhi_color).1)
                   (PyStr.strip raw_text) = Some question_id /\
    (get_pending_questions
       (post_answer Sample.day2 Sample.fresh Sample.nidhi_color).1 user_id).1
      = mkResponse 200 (PendingJson mine) /\
    (get_pending_questions
       (post_answer Sample.day2 Sample.fresh Sample.nidhi_color).1
       (other_of user_id)).1
      = mkResponse 200 (PendingJson theirs) /\
    (question_id ∉ p_id <$> mine) /\
    (question_id ∈ p_id <$> theirs <->
     ¬ answered (Answers (db Sample.fresh)) question_id (other_of user_id)).
Proof.
  apply (pending_after_answer Sample.day2 Sample.fresh Sample.nidhi_color).
  vm_compute. reflexivity.
Defined.

(** After a successful submission the history lists the answered
    question, and shows for the submitter an answer at least as recent as
    the one just stored. *)
Theorem history_after_answer e s r :
  status (post_answer e s r).2 = 201 ->
  exists user_id raw_text question_id history_list h shown,
    form_userId r = Some user_id /\
    form_questionText r = Some raw_text /\
    question_id_of (db (post_answer e s r).1) (PyStr.strip raw_text)
      = Some question_id /\
    (get_history (post_answer e s r).1).2
      = mkResponse 200 (HistoryJson history_list) /\
    h ∈ history_list /\ h_id h = question_id /\
    h_answers h !! user_id = Some shown /\
    now_ms e <= timestamp shown.
Proof.
  intros H.
  destruct (post_answer_created e s r H)
    as (user_id & raw & source & audio_file & x & st & Hu & Hq & _ & _ & _ & Hst & Hpost).
  pose proof (resolve_question_found (db s) (PyStr.strip raw)) as Hfound.
  destruct (resolve_question (db s) (PyStr.strip raw)) as [qid qs'].
  simpl in Hpost, Hfound. rewrite Hpost. simpl.
  set (new := mkAnswer qid user_id (fresh_uuid e +:+ "." +:+ PyStr.lower x) (now_ms e)).
  set (answers' := Answers (db s) ++ [new]).
  destruct (question_id_of_elem _ _ _ Hfound) as (q & Hqin & Hqid). simpl in Hqin.
  destruct (history_of_ids (sort_desc q_id qs') (sort_desc a_timestamp answers'))
    as [_ Hall].
  assert (Hq' : q ∈ sort_desc q_id qs') by (by apply sort_desc_elem).
  apply Hall in Hq'. apply list_elem_of_fmap in Hq' as (h & Hh & Hin).
  destruct (history_of_entry _ _ h Hin) as [_ Hshow].
  assert (Hnew : new ∈ sort_desc a_timestamp answers').
  { apply sort_desc_elem. apply elem_of_snoc. by right. }
  specialize (Hshow user_id).
  destruct (h_answers h !! user_id) as [shown|] eqn:Hlook.
  - destruct Hshow as [_ Hmax].
    exists user_id, raw, qid,
      (history_of (sort_desc q_id qs') (sort_desc a_timestamp answers')), h, shown.
    split; [done|]. split; [done|]. split; [exact Hfound|].
    split; [reflexivity|]. split; [exact Hin|]. split; [congruence|].
    split; [exact Hlook|].
    apply (Hmax new Hnew); [simpl; congruence|done].
  - exfalso. apply (Hshow new Hnew); [simpl; congruence|done].
Qed.

Lemma history_after_answer_witness :
  exists user_id raw_text question_id history_list h shown,
    form_userId Sample.arpan_color = Some user_id /\
    form_questionText Sample.arpan_color = Some raw_text /\
    question_id_of
      (db (post_answer Sample.day2_later Sample.running Sample.arpan_color).1)
      (PyStr.strip raw_text) = Some question_id /\
    (get_history (post_answer Sample.day2_later Sample.running
                              Sample.arpan_color).1).2
      = mkResponse 200 (HistoryJson history_list) /\
    h ∈ history_list /\ h_id h = question_id /\
    h_answers h !! user_id = Some shown /\
    now_ms Sample.day2_later <= timestamp shown.
Proof.
  apply (history_after_answer Sample.day2_later Sample.running Sample.arpan_color).
  vm_compute. reflexivity.
Defined.

(** The blob of a successful submission is stored in the upload folder
    under the name recorded in the new answer row, a name whose extension
    is one of the allowed ones in lower case; when that name passes the
    check of the audio route, the route serves it. *)
Theorem upload_is_served e s r :
  status (post_answer e s r).2 = 201 ->
  exists new ext,
    Answers (db (post_answer e s r).1) = Answers (db s) ++ [new] /\
    a_audio_filename new = fresh_uuid e +:+ "." +:+ ext /\
    ext ∈ ALLOWED_EXTENSIONS /\
    upload_path (a_audio_filename new) ∈ fs (post_answer e s r).1 /\
    (safe_name (a_audio_filename new) ->
     serve_audio (post_answer e s r).1 (a_audio_filename new)
     = (mkResponse 200 (AudioFile (upload_path (a_audio_filename new))),
        [IsFile (upload_path (a_audio_filename new))])).
Proof.
  intros H.
  assert (Hal : exists af, files_audioFile r = Some af /\ allowed_file (filename af) = true).
  { unfold post_answer in H.
    destruct (validate r) as [?|[[[u q] src] af]] eqn:Hv; [discriminate|].
    apply validate_accepts in Hv as (_ & _ & _ & _ & _ & Hf & Hal). eauto. }
  destruct Hal as (af & Haf & Hal).
  destruct (post_answer_created e s r H)
    as (user_id & raw & source & audio_file & x & st & _ & _ & _ & Hf & Hx & Hst & Hpost).
  assert (af = audio_file) by congruence. subst af.
  destruct (allowed_file_ext _ Hal) as (x' & Hx' & Hext).
  assert (x' = x) by congruence. subst x'.
  destruct (resolve_question (db s) (PyStr.strip raw)) as [qid qs'].
  rewrite Hpost. simpl.
  eexists _, (PyStr.lower x). split; [reflexivity|]. simpl.
  split; [reflexivity|]. split; [exact Hext|].
  split; [apply elem_of_union; left; by apply elem_of_singleton|].
  intros [Hc Hs]. unfold serve_audio, serve_audio_with, send_from_directory.
  rewrite Hc, Hs. simpl. rewrite bool_decide_eq_true_2; [done|].
  apply elem_of_union. left. by apply elem_of_singleton.
Qed.

Lemma upload_is_served_witness :
  exists new ext,
    Answers (db (post_answer Sample.day2 Sample.fresh Sample.nidhi_color).1)
      = Answers (db Sample.fresh) ++ [new] /\
    a_audio_filename new = fresh_uuid Sample.day2 +:+ "." +:+ ext /\
    ext ∈ ALLOWED_EXTENSIONS /\
    upload_path (a_audio_filename new)
      ∈ fs (post_answer Sample.day2 Sample.fresh Sample.nidhi_color).1 /\
    (safe_name (a_audio_filename new) ->
     serve_audio (post_answer Sample.day2 Sample.fresh Sample.nidhi_color).1
                 (a_audio_filename new)
     = (mkResponse 200 (AudioFile (upload_path (a_audio_filename new))),
        [IsFile (upload_path (a_audio_filename new))])).
Proof.
  apply (upload_is_served Sample.day2 Sample.fresh Sample.nidhi_color).
  vm_compute. reflexivity.
Defined.

Lemma resolve_question_known d text id :
  question_id_of d text = Some id -> resolve_question d text = (id, Questions d).
Proof.
  unfold question_id_of, resolve_question.
  destruct (List.find _ _); [|discriminate]. by intros [= <-].
Qed.

(** Two successful submissions whose texts differ only in surrounding
    whitespace share one question: the second adds no Question row and its
    answer carries the question id of the first. *)
Theorem same_text_one_question e1 e2 s r1 r2 raw1 raw2 :
  status (post_answer e1 s r1).2 = 201 ->
  status (post_answer e2 (post_answer e1 s r1).1 r2).2 = 201 ->
  form_questionText r1 = Some raw1 -> form_questionText r2 = Some raw2 ->
  PyStr.strip raw1 = PyStr.strip raw2 ->
  Questions (db (post_answer e2 (post_answer e1 s r1).1 r2).1)
    = Questions (db (post_answer e1 s r1).1) /\
  exists a1 a2,
    Answers (db (post_answer e2 (post_answer e1 s r1).1 r2).1)
      = Answers (db s) ++ [a1; a2] /\
    a_question_id a1 = a_question_id a2.
Proof.
  intros H1 H2 Hq1 Hq2 Hstrip.
  destruct (post_answer_created e1 s r1 H1)
    as (u1 & raw1' & src1 & af1 & x1 & st1 & _ & Hq1' & _ & _ & _ & _ & Hpost1).
  assert (raw1' = raw1) by congruence. subst raw1'.
  pose proof (resolve_question_found (db s) (PyStr.strip raw1)) as Hfound.
  destruct (resolve_question (db s) (PyStr.strip raw1)) as [qid qs'].
  simpl in Hfound.
  destruct (post_answer_created e2 _ r2 H2)
    as (u2 & raw2' & src2 & af2 & x2 & st2 & _ & Hq2' & _ & _ & _ & _ & Hpost2).
  assert (raw2' = raw2) by congruence. subst raw2'.
  rewrite Hpost1 in Hpost2 |- *. simpl in Hpost2 |- *.
  rewrite <- Hstrip in Hpost2.
  rewrite (resolve_question_known _ (PyStr.strip raw1) qid) in Hpost2 by exact Hfound.
  simpl in Hpost2. rewrite Hpost2. simpl. split; [done|].
  eexists _, _. split; [by rewrite <- app_assoc|]. reflexivity.
Qed.

Lemma same_text_one_question_witness :
  Questions (db (post_answer Sample.day2_later
                   (post_answer Sample.day2 Sample.fresh Sample.nidhi_color).1
                   Sample.arpan_color).1)
    = Questions (db (post_answer Sample.day2 Sample.fresh Sample.nidhi_color).1) /\
  exists a1 a2,
    Answers (db (post_answer Sample.day2_later
                   (post_answer Sample.day2 Sample.fresh Sample.nidhi_color).1
                   Sample.arpan_color).1)
      = Answers (db Sample.fresh) ++ [a1; a2] /\
    a_question_id a1 = a_question_id a2.
Proof.
  apply (same_text_one_question Sample.day2 Sample.day2_later Sample.fresh
           Sample.nidhi_color Sample.arpan_color
           "  Favorite color? " "Favorite color?").
  - vm_compute. reflexivity.
  - vm_compute. reflexivity.
  - reflexivity.
  - reflexivity.
  - reflexivity.
Defined.

(** ** A failure of the read after the commit *)

Lemma post_answer_read_back_raises e s r x :
  fault e AtReadBack = Some x ->
  status (post_answer (reading_back e) s r).2 = 201 ->
  post_answer e s r
  = ((post_answer (reading_back e) s r).1, mkResponse 500 InternalServerError).
Proof.
  intros Hrb. unfold post_answer.
  destruct (validate r) as [error|[[[user_id question_text] source] audio_file]];
    [discriminate|].
  rewrite transaction_reading_back.
  destruct (transaction _ _ _ _ _ _) as [t [x'|p]]; simpl.
  - destruct (cleanup (reading_back e) t). simpl. discriminate.
  - by rewrite Hrb.
Qed.

(** The SELECT that reads the aggregate row back runs after the commit and
    outside the [try]: when it alone raises, on a valid submission with the
    aggregate row present, the reply is a plain 500 without [pointAwarded],
    yet the answer row, the blob and the points are already stored. *)
Theorem read_back_failure_keeps_commit e s r accepted st x :
  (forall p, p ≠ AtReadBack -> fault e p = None) ->
  fault e AtReadBack = Some x ->
  validate r = inr accepted ->
  CoupleState (db s) = Some st ->
  (post_answer e s r).2 = mkResponse 500 InternalServerError /\
  exists new st',
    Answers (db (post_answer e s r).1) = Answers (db s) ++ [new] /\
    upload_path (a_audio_filename new) ∈ fs (post_answer e s r).1 /\
    CoupleState (db (post_answer e s r).1) = Some st' /\
    (love_points st' = love_points st + 1 \/ love_points st' = love_points st + 5).
Proof.
  intros Hquiet Hrb Hv Hst.
  assert (Hq : quiet_store (reading_back e)).
  { intros p. destruct p; simpl; try (apply Hquiet; discriminate). done. }
  pose proof (post_answer_quiet_201 (reading_back e) s r accepted st Hq Hv Hst) as H201.
  rewrite (post_answer_read_back_raises e s r x Hrb H201). simpl.
  split; [reflexivity|].
  destruct (post_answer_created (reading_back e) s r H201)
    as (user_id & raw & source & audio_file & x' & st0 & _ & _ & _ & _ & _ & Hst0 & Hpost).
  assert (st0 = st) by congruence. subst st0.
  destruct (resolve_question (db s) (PyStr.strip raw)) as [qid qs'].
  rewrite Hpost. simpl. eexists _, _. split; [reflexivity|]. simpl.
  split; [apply elem_of_union; left; by apply elem_of_singleton|].
  split; [reflexivity|]. rewrite recompute_points.
  destruct (award_values (count_rows (db s) qid (other_of user_id))) as [-> | ->]; auto.
Qed.

Lemma read_back_failure_keeps_commit_witness :
  (post_answer
     (mkEnv "2025-01-02" "2025-01-01" "2025-01-02" "2025-01-01" "u9" 9000
        (fun p => match p with
                  | AtReadBack => Some (SqliteError "disk I/O error")
                  | _ => None
                  end) false None)
     Sample.running Sample.arpan_color).2
    = mkResponse 500 InternalServerError /\
  exists new st',
    Answers (db (post_answer
       (mkEnv "2025-01-02" "2025-01-01" "2025-01-02" "2025-01-01" "u9" 9000
          (fun p => match p with
                    | AtReadBack => Some (SqliteError "disk I/O error")
                    | _ => None
                    end) false None)
       Sample.running Sample.arpan_color).1)
      = Answers (db Sample.running) ++ [new] /\
    upload_path (a_audio_filename new) ∈ fs (post_answer
       (mkEnv "2025-01-02" "2025-01-01" "2025-01-02" "2025-01-01" "u9" 9000
          (fun p => match p with
                    | AtReadBack => Some (SqliteError "disk I/O error")
                    | _ => None
                    end) false None)
       Sample.running Sample.arpan_color).1 /\
    CoupleState (db (post_answer
       (mkEnv "2025-01-02" "2025-01-01" "2025-01-02" "2025-01-01" "u9" 9000
          (fun p => match p with
                    | AtReadBack => Some (SqliteError "disk I/O error")
                    | _ => None
                    end) false None)
       Sample.running Sample.arpan_color).1) = Some st' /\
    (love_points st' = 7 + 1 \/ love_points st' = 7 + 5).
Proof.
  apply (read_back_failure_keeps_commit
           (mkEnv "2025-01-02" "2025-01-01" "2025-01-02" "2025-01-01" "u9" 9000
              (fun p => match p with
                        | AtReadBack => Some (SqliteError "disk I/O error")
                        | _ => None
                        end) false None)
           Sample.running Sample.arpan_color
           ("arpan", "Favorite color?", "random", mkUpload "reply.mp3")
           (mkState 7 2 (Some "2025-01-01") (Some "2025-01-02") 1 0)
           (SqliteError "disk I/O error")).
  - intros p Hp. destruct p; try reflexivity. done.
  - reflexivity.
  - vm_compute. reflexivity.
  - reflexivity.
Defined.
